(** * Emotion detection client and its Flask endpoint

    A shallow embedding of [EmotionDetection/emotion_detection.py] and
    [server.py].

    - Python [str] is [string]; a character stands for the code point of the
      same number (0..255).
    - Python [float] is IEEE 754 binary64, taken as [spec_float] of the
      Standard Library; comparisons are [SFltb], [SFleb] and [SFeqb].
    - A value produced by [resp.json()] is a [pyval]; JSON objects are
      [gmap string pyval].
    - Exceptions are values of [exn]; a computation that may raise returns
      [res A].
    - The outbound HTTP call is the only effect.  The world holds the remote
      service (a function of the request) and the log of requests sent. *)

From Stdlib Require Import ZArith Bool Ascii String List Lia.
From Stdlib Require Import Floats.SpecFloat.
From stdpp Require Import base option list strings gmap.

Local Open Scope Z_scope.
Local Open Scope string_scope.
Local Open Scope list_scope.
Local Open Scope stdpp_scope.

(** ** Exceptions *)

Inductive exn : Set :=
  | TypeError
  | ValueError
  | AttributeError
  | KeyError
  | IndexError
  | OverflowError
  | JSONDecodeError
  | ConnectionError
  | ReadTimeout.

Inductive res (A : Type) : Type :=
  | Ok (a : A)
  | Raise (e : exn).
Arguments Ok {A} a.
Arguments Raise {A} e.

#[global] Instance res_ret : MRet res := λ A a, Ok a.
#[global] Instance res_bind : MBind res := λ A B f m,
  match m with
  | Ok a => f a
  | Raise e => Raise e
  end.

(** ** Floats *)

Module Float.

Definition float : Set := spec_float.

Definition prec : Z := 53.
Definition emax : Z := 1024.

Definition zero : float := S754_zero false.
Definition one : float := S754_finite false 4503599627370496 (-52).
Definition nan : float := S754_nan.

Definition is_nan (x : float) : bool :=
  match x with
  | S754_nan => true
  | _ => false
  end.

(** [x > y], [x <= y] and [x == y] of Python floats. *)
Definition gt (x y : float) : bool := SFltb y x.
Definition le (x y : float) : bool := SFleb x y.
Definition eq (x y : float) : bool := SFeqb x y.

(** [float(n)] for an [int]: the nearest binary64 (ties to even);
    [OverflowError] when that is out of range. *)
Definition of_int (n : Z) : res float :=
  match binary_normalize prec emax n 0 false with
  | S754_infinity _ => Raise OverflowError
  | f => Ok f
  end.

End Float.

Abbreviation float := Float.float.

(** ** Python values *)

Unset Elimination Schemes.
Inductive pyval : Type :=
  | PNone
  | PBool (b : bool)
  | PInt (n : Z)
  | PFloat (f : float)
  | PStr (s : string)
  | PList (l : list pyval)
  | PDict (d : gmap string pyval).
Set Elimination Schemes.

(** The values of a result dictionary: [Union[float, str, None]]. *)
Inductive value : Type :=
  | VNone
  | VFloat (f : float)
  | VStr (s : string).

Abbreviation Result := (gmap string value).

(** ** Strings *)

(** The characters [str.strip()] removes, among the code points below 256. *)
Definition isspace (c : ascii) : bool :=
  let n := N_of_ascii c in
  (((9 <=? n) && (n <=? 13)) || ((28 <=? n) && (n <=? 32))
   || (n =? 133) || (n =? 160))%N.

Fixpoint lstrip (s : string) : string :=
  match s with
  | EmptyString => EmptyString
  | String c s' => if isspace c then lstrip s' else s
  end.

Fixpoint rstrip (s : string) : string :=
  match s with
  | EmptyString => EmptyString
  | String c s' =>
    match rstrip s' with
    | EmptyString => if isspace c then EmptyString else String c EmptyString
    | t => String c t
    end
  end.

(** [s.strip()] *)
Definition strip (s : string) : string := rstrip (lstrip s).

(** [bool(s)] for a string. *)
Definition str_truthy (s : string) : bool :=
  match s with
  | EmptyString => false
  | String _ _ => true
  end.

(** [s] is empty or holds only whitespace. *)
Definition blank (s : string) : bool := forallb isspace (list_ascii_of_string s).

(** ** Builtins taken as given

    [float(s)] for a string and [repr(x)] for a float are CPython's own;
    every statement below holds for any such pair of functions. *)
Class Builtins : Type := {
  float_of_str : string -> option float;
  float_repr : float -> string
}.

(** ** Operations on Python values *)

(** [bool(v)] *)
Definition truthy (v : pyval) : bool :=
  match v with
  | PNone => false
  | PBool b => b
  | PInt n => negb (n =? 0)%Z
  | PFloat f => negb (Float.eq f Float.zero)
  | PStr s => str_truthy s
  | PList l => match l with [] => false | _ :: _ => true end
  | PDict d => negb (bool_decide (d = ∅))
  end.

(** [v.get(k, dflt)]: only a dict has the method. *)
Definition dict_get (v : pyval) (k : string) (dflt : pyval) : res pyval :=
  match v with
  | PDict d => Ok (default dflt (d !! k))
  | _ => Raise AttributeError
  end.

(** [v[0]] *)
Definition getitem0 (v : pyval) : res pyval :=
  match v with
  | PList (x :: _) => Ok x
  | PList [] => Raise IndexError
  | PStr (String c _) => Ok (PStr (String c EmptyString))
  | PStr EmptyString => Raise IndexError
  | PDict _ => Raise KeyError
  | PNone | PBool _ | PInt _ | PFloat _ => Raise TypeError
  end.

(** [float(v)] *)
Definition py_float `{Builtins} (v : pyval) : res float :=
  match v with
  | PFloat f => Ok f
  | PInt n => Float.of_int n
  | PBool b => Ok (if b then Float.one else Float.zero)
  | PStr s =>
    match float_of_str s with
    | Some f => Ok f
    | None => Raise ValueError
    end
  | PNone | PList _ | PDict _ => Raise TypeError
  end.

(** [max(first, *rest, key=key)]: the running maximum is replaced only by a
    strictly greater key. *)
Definition py_max {A : Type} (key : A -> float) (first : A) (rest : list A) : A :=
  fold_left (fun m x => if Float.gt (key x) (key m) then x else m) rest first.

(** ** The outbound call *)

Record Request : Type := mkRequest {
  req_url : string;
  req_headers : gmap string string;
  req_json : pyval;
  req_timeout : Z
}.

Record Response : Type := mkResponse {
  status_code : Z;
  json : res pyval
}.

Record World : Type := mkWorld {
  remote : Request -> res Response;
  sent : list Request
}.

Definition M (A : Type) : Type := World -> res A * World.

#[global] Instance M_ret : MRet M := λ A a w, (Ok a, w).
#[global] Instance M_bind : MBind M := λ A B f m w,
  match m w with
  | (Ok a, w') => f a w'
  | (Raise e, w') => (Raise e, w')
  end.

Definition lift {A : Type} (r : res A) : M A := λ w, (r, w).

(** [requests.post(url, headers=..., json=..., timeout=...)] *)
Definition requests_post (url : string) (headers : gmap string string)
    (payload : pyval) (timeout : Z) : M Response := λ w,
  let rq := mkRequest url headers payload timeout in
  (remote w rq, mkWorld (remote w) (sent w ++ [rq])).

(** ** emotion_detection.py *)

Definition WATSON_URL : string :=
  "https://sn-watson-emotion.labs.skills.network/v1/watson.runtime.nlp.v1/NlpService/EmotionPredict".

Definition HEADERS : gmap string string :=
  {[ "grpc-metadata-mm-model-id" := "emotion_aggregated-workflow_lang_en_stock" ]}.

Definition EMPTY_RESULT : Result :=
  {[ "anger" := VNone;
     "disgust" := VNone;
     "fear" := VNone;
     "joy" := VNone;
     "sadness" := VNone;
     "dominant_emotion" := VNone ]}.

Definition emotion_detector `{Builtins} (text_to_analyze : string) : M Result :=
  if negb (str_truthy text_to_analyze) || negb (str_truthy (strip text_to_analyze))
  then mret EMPTY_RESULT
  else
    let payload :=
      PDict {[ "raw_document" := PDict {[ "text" := PStr text_to_analyze ]} ]} in
    resp ← requests_post WATSON_URL HEADERS payload 10;
    if (status_code resp =? 400)%Z then mret EMPTY_RESULT
    else
      match json resp with
      | Raise _ => mret EMPTY_RESULT
      | Ok data =>
        preds ← lift (dict_get data "emotionPredictions" (PList []));
        if negb (truthy preds) then mret EMPTY_RESULT
        else
          scores ← lift (entry ← getitem0 preds;
                         dict_get entry "emotion" (PDict ∅));
          anger ← lift (v ← dict_get scores "anger" (PFloat Float.zero); py_float v);
          disgust ← lift (v ← dict_get scores "disgust" (PFloat Float.zero); py_float v);
          fear ← lift (v ← dict_get scores "fear" (PFloat Float.zero); py_float v);
          joy ← lift (v ← dict_get scores "joy" (PFloat Float.zero); py_float v);
          sadness ← lift (v ← dict_get scores "sadness" (PFloat Float.zero); py_float v);
          let dominant :=
            (py_max snd
               ("anger", anger)
               [("disgust", disgust);
                ("fear", fear);
                ("joy", joy);
                ("sadness", sadness)]).1 in
          mret ({[ "anger" := VFloat anger;
                   "disgust" := VFloat disgust;
                   "fear" := VFloat fear;
                   "joy" := VFloat joy;
                   "sadness" := VFloat sadness;
                   "dominant_emotion" := VStr dominant ]} : Result)
      end.

(** ** server.py *)

(** The part of Flask's [request] the handler reads.  [args] and [form] are
    multi-dicts: [get] gives the first value of a key. *)
Record FlaskRequest : Type := mkFlaskRequest {
  method : string;
  args : list (string * string);
  form : list (string * string)
}.

Fixpoint multidict_get (d : list (string * string)) (k : string) : option string :=
  match d with
  | [] => None
  | (k', v) :: d' => if String.eqb k' k then Some v else multidict_get d' k
  end.

(** [(x or "")] for [x] a string or [None]. *)
Definition or_empty (x : option string) : string :=
  match x with
  | Some s => if str_truthy s then s else EmptyString
  | None => EmptyString
  end.

(** [result[k]] *)
Definition getitem (result : Result) (k : string) : res value :=
  match result !! k with
  | Some v => Ok v
  | None => Raise KeyError
  end.

(** The text an f-string puts for [{v}]. *)
Definition format_value `{Builtins} (v : value) : string :=
  match v with
  | VNone => "None"
  | VFloat f => float_repr f
  | VStr s => s
  end.

Definition is_None (v : value) : bool :=
  match v with
  | VNone => true
  | _ => false
  end.

Definition emotion_detector_route `{Builtins} (request : FlaskRequest) : M (string * Z) :=
  let text :=
    if String.eqb (method request) "GET"
    then strip (or_empty (multidict_get (args request) "textToAnalyze"))
    else strip (or_empty (multidict_get (form request) "textToAnalyze")) in
  result ← emotion_detector text;
  dom ← lift (getitem result "dominant_emotion");
  if is_None dom then mret ("Invalid text! Please try again!", 200)
  else
    formatted ← lift (
      anger ← getitem result "anger";
      disgust ← getitem result "disgust";
      fear ← getitem result "fear";
      joy ← getitem result "joy";
      sadness ← getitem result "sadness";
      dominant ← getitem result "dominant_emotion";
      mret ("For the given statement, the system response is "
            +:+ "'anger': " +:+ format_value anger
            +:+ ", 'disgust': " +:+ format_value disgust +:+ ", "
            +:+ "'fear': " +:+ format_value fear
            +:+ ", 'joy': " +:+ format_value joy +:+ " and "
            +:+ "'sadness': " +:+ format_value sadness
            +:+ ". The dominant emotion is "
            +:+ format_value dominant +:+ "."));
    mret (formatted, 200).

(** ** Statements in the spec's words *)

Definition emotion_keys : list string := ["anger"; "disgust"; "fear"; "joy"; "sadness"].

(** All six fields are null. *)
Definition all_null (r : Result) : Prop :=
  r !! "anger" = Some VNone /\ r !! "disgust" = Some VNone /\
  r !! "fear" = Some VNone /\ r !! "joy" = Some VNone /\
  r !! "sadness" = Some VNone /\ r !! "dominant_emotion" = Some VNone.

(** The fully populated record. *)
Definition populated (anger disgust fear joy sadness : float) (dominant : string) : Result :=
  {[ "anger" := VFloat anger;
     "disgust" := VFloat disgust;
     "fear" := VFloat fear;
     "joy" := VFloat joy;
     "sadness" := VFloat sadness;
     "dominant_emotion" := VStr dominant ]}.

(** The five scores in the fixed order. *)
Definition score_list (anger disgust fear joy sadness : float) : list (string * float) :=
  [("anger", anger); ("disgust", disgust); ("fear", fear); ("joy", joy);
   ("sadness", sadness)].

(** [k] is the key with the maximum score, the earliest one among ties. *)
Definition dominant_spec (scores : list (string * float)) (k : string) : Prop :=
  exists (i : nat) (v : float),
    scores !! i = Some (k, v) /\
    (forall j x, scores !! j = Some x -> Float.le x.2 v = true) /\
    (forall j x, (j < i)%nat -> scores !! j = Some x -> Float.eq x.2 v = false).

Definition no_nan (scores : list (string * float)) : Prop :=
  Forall (fun x => Float.is_nan x.2 = false) scores.

(** The prediction entries of a parsed body: the elements of its
    emotionPredictions list. *)
Definition prediction_entries (data : pyval) : list pyval :=
  match data with
  | PDict d =>
    match d !! "emotionPredictions" with
    | Some (PList l) => l
    | _ => []
    end
  | _ => []
  end.

(** The request [emotion_detector] sends for a text. *)
Definition watson_request (text : string) : Request :=
  mkRequest WATSON_URL HEADERS
    (PDict {[ "raw_document" := PDict {[ "text" := PStr text ]} ]}) 10.

(** The world once that request has been sent. *)
Definition after_call (w : World) (text : string) : World :=
  mkWorld (remote w) (sent w ++ [watson_request text]).

(** The text the handler passes on. *)
Definition request_text (request : FlaskRequest) : string :=
  if String.eqb (method request) "GET"
  then strip (or_empty (multidict_get (args request) "textToAnalyze"))
  else strip (or_empty (multidict_get (form request) "textToAnalyze")).

(** [float(scores.get(k, 0.0))] *)
Definition score `{Builtins} (scores : pyval) (k : string) : res float :=
  v ← dict_get scores k (PFloat Float.zero); py_float v.

(** Lines 42-65 as a function of the first prediction entry. *)
Definition from_entry `{Builtins} (entry : pyval) : res Result :=
  scores ← dict_get entry "emotion" (PDict ∅);
  anger ← score scores "anger";
  disgust ← score scores "disgust";
  fear ← score scores "fear";
  joy ← score scores "joy";
  sadness ← score scores "sadness";
  Ok (populated anger disgust fear joy sadness
        (py_max snd ("anger", anger)
           [("disgust", disgust); ("fear", fear); ("joy", joy);
            ("sadness", sadness)]).1).

(** Lines 29-65 as a function of the response alone. *)
Definition digest `{Builtins} (resp : Response) : res Result :=
  if (status_code resp =? 400)%Z then Ok EMPTY_RESULT
  else
    match json resp with
    | Raise _ => Ok EMPTY_RESULT
    | Ok data =>
      preds ← dict_get data "emotionPredictions" (PList []);
      if negb (truthy preds) then Ok EMPTY_RESULT
      else entry ← getitem0 preds; from_entry entry
    end.

(** [x] is what the code reads for key [k]: 0.0 when the key is missing,
    else the value coerced to a float. *)
Definition reads `{Builtins} (scores : gmap string pyval) (k : string) (x : float) : Prop :=
  match scores !! k with
  | None => x = Float.zero
  | Some v => py_float v = Ok x
  end.

(** The first prediction entry of the response yields the five scores. *)
Definition yields `{Builtins} (resp : Response) (a d f j s : float) : Prop :=
  exists (body entry : gmap string pyval) (more : list pyval) (scores : gmap string pyval),
    json resp = Ok (PDict body) /\
    body !! "emotionPredictions" = Some (PList (PDict entry :: more)) /\
    default (PDict ∅) (entry !! "emotion") = PDict scores /\
    reads scores "anger" a /\ reads scores "disgust" d /\ reads scores "fear" f /\
    reads scores "joy" j /\ reads scores "sadness" s.

(** ** Sample inputs *)

(** A pair of builtins to run the code on examples: [float] knows the three
    special literals only, [repr] is exact on the special values. *)
Definition sample_builtins : Builtins := {|
  float_of_str := fun s =>
    if String.eqb s "nan" then Some S754_nan
    else if String.eqb s "inf" then Some (S754_infinity false)
    else if String.eqb s "-inf" then Some (S754_infinity true)
    else None;
  float_repr := fun x =>
    match x with
    | S754_zero false => "0.0"
    | S754_zero true => "-0.0"
    | S754_infinity false => "inf"
    | S754_infinity true => "-inf"
    | S754_nan => "nan"
    | S754_finite _ _ _ => "<finite>"
    end
|}.

(** 0.5 *)
Definition half : float := S754_finite false 4503599627370496 (-53).

(** A remote service that answers every request with one response. *)
Definition answering (status : Z) (body : res pyval) : World :=
  mkWorld (fun _ => Ok (mkResponse status body)) [].

(** A remote service that cannot be reached. *)
Definition unreachable (e : exn) : World := mkWorld (fun _ => Raise e) [].

(** The body [{"emotionPredictions": [{"emotion": scores}, ...]}]. *)
Definition predictions (entries : list (gmap string pyval)) : pyval :=
  PDict {[ "emotionPredictions" :=
             PList ((fun scores => PDict {[ "emotion" := PDict scores ]}) <$> entries) ]}.

(** One entry: anger 0.5, joy 1 (an int), sadness true; a tie of joy and
    sadness at 1.0. *)
Definition glad_body : pyval :=
  predictions [ {[ "anger" := PFloat half; "joy" := PInt 1; "sadness" := PBool true ]} ].

(** Two entries; the second one says sadness 7. *)
Definition two_entries_body : pyval :=
  predictions [ {[ "anger" := PInt 1; "joy" := PFloat half ]};
                {[ "sadness" := PInt 7 ]} ].

(** The body [{"emotionPredictions": [{"emotion": {"anger": NaN, "joy": 0.5}}]}]. *)
Definition nan_anger_body : pyval :=
  predictions [ {[ "anger" := PFloat Float.nan; "joy" := PFloat half ]} ].

(** The body [{"emotionPredictions": [{"emotion": {"anger": "nan", "sadness": 1}}]}];
    [float("nan")] is NaN. *)
Definition nan_anger_sad_body : pyval :=
  predictions [ {[ "anger" := PStr "nan"; "sadness" := PInt 1 ]} ].

(** The body [{"emotionPredictions": [{"emotion": {"anger": null}}]}]. *)
Definition null_anger_body : pyval :=
  predictions [ {[ "anger" := PNone ]} ].

(** The body [{"emotionPredictions": [{"emotion": {"anger": "high"}}]}]. *)
Definition text_anger_body : pyval :=
  predictions [ {[ "anger" := PStr "high" ]} ].

(** ** Further definitions *)

(** The values Python takes as false: null, false, 0, 0.0 and -0.0, the
    empty string, the empty list, the empty object. *)
Definition falsy (v : pyval) : Prop :=
  v = PNone \/ v = PBool false \/ v = PInt 0 \/
  (exists sign, v = PFloat (S754_zero sign)) \/
  v = PStr EmptyString \/ v = PList [] \/ v = PDict ∅.

(** The value of the field the handler reads: the query parameter of a GET
    request, the form field of any other. *)
Definition submitted (request : FlaskRequest) : option string :=
  if String.eqb (method request) "GET"
  then multidict_get (args request) "textToAnalyze"
  else multidict_get (form request) "textToAnalyze".

(** ** test_emotion_detection.py *)

Definition CASES : list (string * string) :=
  [("I am glad this happened", "joy");
   ("I am really mad about this", "anger");
   ("I feel disgusted just hearing about this", "disgust");
   ("I am so sad about this", "sadness");
   ("I am really afraid that this will happen", "fear")].

(** How a test ends: it passes, an [assert] fails (kept with the text and
    the record its message is made of), or an exception comes out. *)
Inductive test_outcome : Type :=
  | Passed
  | AssertionError (text : string) (res : Result)
  | Errored (e : exn).

(** [v == expected] for a field of the record and a string. *)
Definition eq_str (v : value) (expected : string) : bool :=
  match v with
  | VStr s => String.eqb s expected
  | VNone | VFloat _ => false
  end.

(** The [for] loop over the cases that are left. *)
Fixpoint for_cases `{Builtins} (cases : list (string * string)) (w : World)
    : test_outcome * World :=
  match cases with
  | [] => (Passed, w)
  | (text, expected) :: cases' =>
    match emotion_detector text w with
    | (Raise e, w') => (Errored e, w')
    | (Ok res, w') =>
      match getitem res "dominant_emotion" with
      | Raise e => (Errored e, w')
      | Ok v =>
        if eq_str v expected then for_cases cases' w'
        else (AssertionError text res, w')
      end
    end
  end.

Definition test_dominant_emotions `{Builtins} (w : World) : test_outcome * World :=
  for_cases CASES w.

(** A case passes: the record for its text names the expected emotion. *)
Definition case_passes `{Builtins} (w : World) (case : string * string) : Prop :=
  exists res,
    (emotion_detector case.1 w).1 = Ok res /\
    res !! "dominant_emotion" = Some (VStr case.2).

(** ** Further sample inputs *)

(** The text of the payload of a request, if it has one. *)
Definition payload_text (rq : Request) : option string :=
  match req_json rq with
  | PDict d =>
    match d !! "raw_document" with
    | Some (PDict d') =>
      match d' !! "text" with
      | Some (PStr t) => Some t
      | _ => None
      end
    | _ => None
    end
  | _ => None
  end.

(** A remote service that gives the emotion a sample text was written for
    the score 1, and status 400 for a text it does not know. *)
Definition fixture_remote (rq : Request) : res Response :=
  match payload_text rq with
  | Some t =>
    match multidict_get CASES t with
    | Some emotion =>
        Ok (mkResponse 200 (Ok (predictions [ {[ emotion := PInt 1 ]} ])))
    | None => Ok (mkResponse 400 (Raise JSONDecodeError))
    end
  | None => Ok (mkResponse 400 (Raise JSONDecodeError))
  end.

Definition fixture_world : World := mkWorld fixture_remote [].

(** The body [{"emotionPredictions": [{"emotion": {"anger": 0.5, "disgust": null, "fear": "high"}}]}]. *)
Definition two_bad_scores_body : pyval :=
  predictions [ {[ "anger" := PFloat half; "disgust" := PNone; "fear" := PStr "high" ]} ].

(** A body with more than is read: a key besides emotionPredictions, a key
    besides emotion in the entry, a sixth emotion. *)
Definition noisy_joy_body : pyval :=
  PDict {[ "emotionPredictions" :=
             PList [PDict {[ "emotion" :=
                               PDict {[ "joy" := PInt 1; "surprise" := PStr "high" ]};
                             "target" := PStr "me" ]}];
           "producerId" := PNone ]}.

(** The body [{"emotionPredictions": [{"emotion": {"joy": 1}}]}]. *)
Definition joy_body : pyval := predictions [ {[ "joy" := PInt 1 ]} ].

(** * Properties *)

(** ** The order of floats *)

Module FloatOrder.
Import Float.

Ltac cmp_cases :=
  repeat match goal with
  | |- context [Z.compare ?a ?b] => destruct (Z.compare_spec a b)
  | |- context [Pos.compare_cont Eq ?a ?b] =>
      change (Pos.compare_cont Eq a b) with (Pos.compare a b);
      destruct (Pos.compare_spec a b)
  end.

Ltac by_cases x := destruct x as [[]|[]| |[] ? ?].

Lemma not_gt_le (x y : float) :
  is_nan x = false -> is_nan y = false -> gt x y = false -> le x y = true.
Proof.
  unfold gt, le, SFltb, SFleb. by_cases x; by_cases y; simpl; try congruence;
    intros _ _; cmp_cases; simpl; try congruence; try lia.
Qed.

Lemma gt_le (x y : float) : gt y x = true -> le x y = true.
Proof.
  unfold gt, le, SFltb, SFleb. destruct (SFcompare x y) as [[]|]; congruence.
Qed.

Lemma gt_not_eq (x y : float) : gt y x = true -> eq x y = false.
Proof.
  unfold gt, eq, SFltb, SFeqb. destruct (SFcompare x y) as [[]|]; congruence.
Qed.

Lemma eq_not_gt (x y : float) : eq x y = true -> gt y x = false.
Proof.
  unfold gt, eq, SFltb, SFeqb. destruct (SFcompare x y) as [[]|]; congruence.
Qed.

Lemma le_refl (x : float) : is_nan x = false -> le x x = true.
Proof.
  unfold le, SFleb. destruct x as [[]|[]| |[] m e]; simpl; try congruence; intros _;
    rewrite Z.compare_refl; change (Pos.compare_cont Eq m m) with (Pos.compare m m);
    rewrite Pos.compare_refl; reflexivity.
Qed.

Lemma gt_trans (x y z : float) : gt z y = true -> gt y x = true -> gt z x = true.
Proof.
  unfold gt, SFltb. by_cases x; by_cases y; by_cases z; simpl; try congruence;
    cmp_cases; simpl; try congruence; try lia.
Qed.

Lemma le_gt_trans (x y z : float) : le x y = true -> gt z y = true -> gt z x = true.
Proof.
  unfold gt, le, SFltb, SFleb. by_cases x; by_cases y; by_cases z; simpl; try congruence;
    cmp_cases; simpl; try congruence; try lia.
Qed.

Lemma le_nan_r (x : float) : le x nan = false.
Proof. unfold le, SFleb. by destruct x. Qed.
End FloatOrder.

(** ** The running maximum *)

Section Max.
Import Float FloatOrder.
Context {A : Type} (key : A -> float).

Lemma py_max_scan (rest : list A) : forall (pre : list A) (m : A) (mid : list A),
  Forall (fun x => is_nan (key x) = false) (m :: rest) ->
  Forall (fun x => gt (key m) (key x) = true) pre ->
  Forall (fun x => le (key x) (key m) = true) mid ->
  exists pre' post',
    pre ++ m :: mid ++ rest = pre' ++ py_max key m rest :: post' /\
    Forall (fun x => gt (key (py_max key m rest)) (key x) = true) pre' /\
    Forall (fun x => le (key x) (key (py_max key m rest)) = true) post'.
Proof.
  induction rest as [|x rest IH]; intros pre m mid Hnan Hpre Hmid.
  - exists pre, mid. by rewrite app_nil_r.
  - apply Forall_cons in Hnan as [Hm Hnan]. apply Forall_cons in Hnan as [Hx Hnan].
    unfold py_max. simpl. fold (py_max key (if gt (key x) (key m) then x else m) rest).
    destruct (gt (key x) (key m)) eqn:Hgt.
    + destruct (IH (pre ++ m :: mid) x []) as (pre' & post' & Heq & H1 & H2).
      * by constructor.
      * apply Forall_app. split; [|constructor]; [| done |].
        -- eapply Forall_impl; [exact Hpre|]. simpl. intros y Hy.
           by apply gt_trans with (key m).
        -- eapply Forall_impl; [exact Hmid|]. simpl. intros y Hy.
           by apply le_gt_trans with (key m).
      * constructor.
      * exists pre', post'. split; [|done]. rewrite <- Heq.
        by rewrite <- !app_assoc.
    + destruct (IH pre m (mid ++ [x])) as (pre' & post' & Heq & H1 & H2).
      * by constructor.
      * done.
      * apply Forall_app. split; [done|]. constructor; [|constructor].
        by apply not_gt_le.
      * exists pre', post'. split; [|done]. rewrite <- Heq.
        by rewrite <- !app_assoc.
Qed.

(** Without NaN, [max] gives the first element whose key is the greatest. *)
Lemma py_max_first (first : A) (rest : list A) :
  Forall (fun x => is_nan (key x) = false) (first :: rest) ->
  exists i,
    (first :: rest) !! i = Some (py_max key first rest) /\
    (forall j x, (first :: rest) !! j = Some x ->
                 le (key x) (key (py_max key first rest)) = true) /\
    (forall j x, (j < i)%nat -> (first :: rest) !! j = Some x ->
                 eq (key x) (key (py_max key first rest)) = false).
Proof.
  intros Hnan.
  destruct (py_max_scan rest [] first [] Hnan) as (pre & post & Heq & H1 & H2);
    [constructor..|].
  simpl in Heq. exists (length pre). rewrite Heq. split; [|split].
  - by rewrite list_lookup_middle.
  - intros j x Hj. apply list_elem_of_lookup_2 in Hj.
    apply elem_of_app in Hj as [Hj|Hj].
    + apply gt_le. by eapply Forall_forall in H1.
    + apply elem_of_cons in Hj as [->|Hj].
      * apply le_refl.
        assert (py_max key first rest ∈ first :: rest) as Hin.
        { rewrite Heq. apply elem_of_app. right. by left. }
        by eapply Forall_forall in Hnan.
      * by eapply Forall_forall in H2.
  - intros j x Hlt Hj. rewrite lookup_app_l in Hj by done.
    apply list_elem_of_lookup_2 in Hj. apply gt_not_eq.
    by eapply Forall_forall in H1.
Qed.
End Max.

(** ** Blank input *)

Lemma lstrip_blank (s : string) : blank s = true -> lstrip s = EmptyString.
Proof.
  unfold blank. induction s as [|c s IH]; simpl; [done|].
  intros [Hc Hs]%andb_true_iff. by rewrite Hc, IH.
Qed.

Lemma lstrip_not_blank (s : string) :
  blank s = false -> exists c t, lstrip s = String c t /\ isspace c = false.
Proof.
  unfold blank. induction s as [|c s IH]; simpl; [done|].
  destruct (isspace c) eqn:Hc; simpl; [done|]. intros _. by exists c, s.
Qed.

Lemma rstrip_head (c : ascii) (t : string) :
  isspace c = false -> str_truthy (rstrip (String c t)) = true.
Proof. intros Hc. simpl. rewrite Hc. by destruct (rstrip t). Qed.

(** The guard of [emotion_detector] holds exactly for blank text. *)
Lemma guard_blank (s : string) :
  negb (str_truthy s) || negb (str_truthy (strip s)) = blank s.
Proof.
  destruct (blank s) eqn:Hb.
  - unfold strip. rewrite lstrip_blank by done. simpl. by rewrite orb_true_r.
  - destruct (lstrip_not_blank s Hb) as (c & t & Hl & Hc).
    unfold strip. rewrite Hl, rstrip_head by done.
    destruct s; [done|]. reflexivity.
Qed.

(** ** The detector, step by step *)

Section Detector.
Context `{Builtins}.

Lemma emotion_detector_blank (text : string) (w : World) :
  blank text = true -> emotion_detector text w = (Ok EMPTY_RESULT, w).
Proof. intros Hb. unfold emotion_detector. by rewrite guard_blank, Hb. Qed.

Lemma emotion_detector_call (text : string) (w : World) :
  blank text = false ->
  emotion_detector text w =
    (match remote w (watson_request text) with
     | Ok resp => digest resp
     | Raise e => Raise e
     end, after_call w text).
Proof.
  intros Hb. unfold emotion_detector. rewrite guard_blank, Hb.
  cbv beta iota zeta. unfold mbind at 1, M_bind at 1, requests_post.
  change (mkRequest _ _ _ _) with (watson_request text).
  change (mkWorld _ _) with (after_call w text).
  destruct (remote w (watson_request text)) as [resp|e]; [|done].
  unfold digest. destruct (status_code resp =? 400)%Z; [done|].
  destruct (json resp) as [data|e]; [|done].
  unfold from_entry, mbind, M_bind, lift, score.
  destruct (dict_get data _ _) as [preds|e]; simpl; [|done].
  destruct (truthy preds); simpl; [|done].
  destruct (getitem0 preds) as [entry|e]; simpl; [|done].
  destruct (dict_get entry _ _) as [scores|e]; simpl; [|done].
  repeat match goal with
  | |- context [dict_get scores ?k ?d] =>
      destruct (dict_get scores k d) as [?|?]; simpl; [|done]
  | |- context [py_float ?v] =>
      destruct (py_float v) as [?|?]; simpl; [|done]
  end.
  done.
Qed.
End Detector.

Section Shape.
Context `{Builtins}.

Lemma score_reads (scores : gmap string pyval) (k : string) (x : float) :
  reads scores k x -> score (PDict scores) k = Ok x.
Proof.
  unfold reads, score. simpl. destruct (scores !! k); simpl; [done|].
  by intros ->.
Qed.

Lemma py_max_elem {A : Type} (key : A -> float) (rest : list A) :
  forall first, py_max key first rest ∈ first :: rest.
Proof.
  unfold py_max. induction rest as [|x rest IH]; intros first; simpl; [by left|].
  destruct (Float.gt (key x) (key first)).
  - right. apply IH.
  - specialize (IH first). apply elem_of_cons in IH as [Heq|Hin].
    + rewrite Heq. by left.
    + right. by right.
Qed.

Lemma sentinel_all_null : all_null EMPTY_RESULT.
Proof. by repeat split. Qed.

Lemma digest_400 (resp : Response) :
  status_code resp = 400 -> digest resp = Ok EMPTY_RESULT.
Proof. intros Hs. unfold digest. by rewrite Hs. Qed.

Lemma digest_yields (resp : Response) (a d f j s : float) :
  status_code resp <> 400 ->
  yields resp a d f j s ->
  digest resp =
    Ok (populated a d f j s
          (py_max snd ("anger", a)
             [("disgust", d); ("fear", f); ("joy", j); ("sadness", s)]).1).
Proof.
  intros Hs (body & entry & more & scores & Hj & Hp & He & Ha & Hd & Hf & Hy & Hsd).
  unfold digest, from_entry. apply Z.eqb_neq in Hs. rewrite Hs, Hj. simpl.
  rewrite Hp. simpl. rewrite He. simpl.
  rewrite (score_reads _ _ _ Ha), (score_reads _ _ _ Hd), (score_reads _ _ _ Hf),
    (score_reads _ _ _ Hy), (score_reads _ _ _ Hsd).
  reflexivity.
Qed.

(** A record that comes back is the sentinel or a populated one. *)
Lemma digest_shape (resp : Response) (r : Result) :
  digest resp = Ok r ->
  r = EMPTY_RESULT \/
  exists a d f j s,
    r = populated a d f j s
          (py_max snd ("anger", a)
             [("disgust", d); ("fear", f); ("joy", j); ("sadness", s)]).1.
Proof.
  unfold digest. destruct (status_code resp =? 400)%Z; [intros [= <-]; by left|].
  destruct (json resp) as [data|e]; [|intros [= <-]; by left].
  destruct (dict_get data _ _) as [preds|e]; simpl; [|done].
  destruct (truthy preds); simpl; [|intros [= <-]; by left].
  destruct (getitem0 preds) as [entry|e]; simpl; [|done].
  unfold from_entry.
  destruct (dict_get entry _ _) as [scores|e]; simpl; [|done].
  destruct (score scores "anger") as [a|e]; simpl; [|done].
  destruct (score scores "disgust") as [d|e]; simpl; [|done].
  destruct (score scores "fear") as [f|e]; simpl; [|done].
  destruct (score scores "joy") as [j|e]; simpl; [|done].
  destruct (score scores "sadness") as [s|e]; simpl; [|done].
  intros [= <-]. right. by exists a, d, f, j, s.
Qed.

Lemma emotion_detector_shape (text : string) (w w' : World) (r : Result) :
  emotion_detector text w = (Ok r, w') ->
  r = EMPTY_RESULT \/
  exists a d f j s,
    r = populated a d f j s
          (py_max snd ("anger", a)
             [("disgust", d); ("fear", f); ("joy", j); ("sadness", s)]).1.
Proof.
  destruct (blank text) eqn:Hb.
  - rewrite emotion_detector_blank by done. intros [= <- _]. by left.
  - rewrite emotion_detector_call by done.
    destruct (remote w (watson_request text)) as [resp|e]; [|done].
    intros [= Hd _]. by apply digest_shape in Hd.
Qed.

Lemma getitem_populated (a d f j s : float) (k : string) :
  getitem (populated a d f j s k) "anger" = Ok (VFloat a) /\
  getitem (populated a d f j s k) "disgust" = Ok (VFloat d) /\
  getitem (populated a d f j s k) "fear" = Ok (VFloat f) /\
  getitem (populated a d f j s k) "joy" = Ok (VFloat j) /\
  getitem (populated a d f j s k) "sadness" = Ok (VFloat s) /\
  getitem (populated a d f j s k) "dominant_emotion" = Ok (VStr k).
Proof. by vm_compute. Qed.

Lemma populated_not_sentinel (a d f j s : float) (k : string) :
  populated a d f j s k <> EMPTY_RESULT.
Proof.
  intros Heq. apply (f_equal (fun m : Result => m !! "anger")) in Heq.
  by vm_compute in Heq.
Qed.

Lemma dominant_no_nan (a d f j s : float) :
  no_nan (score_list a d f j s) ->
  dominant_spec (score_list a d f j s)
    (py_max snd ("anger", a)
       [("disgust", d); ("fear", f); ("joy", j); ("sadness", s)]).1.
Proof.
  intros Hnan.
  destruct (py_max_first snd ("anger", a)
              [("disgust", d); ("fear", f); ("joy", j); ("sadness", s)] Hnan)
    as (i & Hi & Hle & Heq).
  set (m := py_max _ _ _) in *.
  exists i, m.2. split; [|done]. change (score_list a d f j s !! i = Some (m.1, m.2)).
  by rewrite <- surjective_pairing.
Qed.

Lemma dominant_key (a d f j s : float) :
  (py_max snd ("anger", a)
     [("disgust", d); ("fear", f); ("joy", j); ("sadness", s)]).1 ∈ emotion_keys.
Proof.
  pose proof (py_max_elem snd [("disgust", d); ("fear", f); ("joy", j); ("sadness", s)]
                ("anger", a)) as Hin.
  apply (list_elem_of_fmap_2 fst) in Hin. exact Hin.
Qed.

Lemma dominant_all_equal (a d f j s : float) :
  Float.eq a d = true -> Float.eq a f = true ->
  Float.eq a j = true -> Float.eq a s = true ->
  (py_max snd ("anger", a)
     [("disgust", d); ("fear", f); ("joy", j); ("sadness", s)]).1 = "anger".
Proof.
  intros Hd Hf Hj Hs. unfold py_max. simpl.
  rewrite (FloatOrder.eq_not_gt a d Hd). simpl.
  rewrite (FloatOrder.eq_not_gt a f Hf). simpl.
  rewrite (FloatOrder.eq_not_gt a j Hj). simpl.
  by rewrite (FloatOrder.eq_not_gt a s Hs).
Qed.

End Shape.

Example float_one_is_1 : Float.of_int 1 = Ok Float.one.
Proof. reflexivity. Qed.

(** ** The claims *)

Section Claims.
Context `{Builtins}.

Lemma digest_first_entry (resp : Response) (body : gmap string pyval)
    (entry : pyval) (more : list pyval) :
  status_code resp <> 400 ->
  json resp = Ok (PDict body) ->
  body !! "emotionPredictions" = Some (PList (entry :: more)) ->
  digest resp = from_entry entry.
Proof.
  intros Hs Hj Hp. unfold digest. apply Z.eqb_neq in Hs.
  rewrite Hs, Hj. simpl. by rewrite Hp.
Qed.

(** C1 (amended). When the first prediction entry of a response whose status
    is not 400 yields five scores none of which is NaN, the record returned
    has as dominant_emotion the key with the maximum score, the earliest in
    the order anger, disgust, fear, joy, sadness among equal scores; when
    the five scores are equal it is anger. *)
Theorem dominant_is_first_maximum (text : string) (w : World) (resp : Response)
    (a d f j s : float) :
  blank text = false ->
  remote w (watson_request text) = Ok resp ->
  status_code resp <> 400 ->
  yields resp a d f j s ->
  no_nan (score_list a d f j s) ->
  exists k,
    emotion_detector text w = (Ok (populated a d f j s k), after_call w text) /\
    dominant_spec (score_list a d f j s) k /\
    (Float.eq a d = true -> Float.eq a f = true ->
     Float.eq a j = true -> Float.eq a s = true -> k = "anger").
Proof.
  intros Hb Hr Hs Hy Hnan. eexists. split; [|split].
  - rewrite emotion_detector_call, Hr by done. by erewrite digest_yields.
  - by apply dominant_no_nan.
  - apply dominant_all_equal.
Qed.

(** C2. For a text that is empty or holds only whitespace the sentinel comes
    back, all six fields null, and the world is left as it was: nothing has
    been sent. *)
Theorem blank_text_returns_sentinel (text : string) (w : World) :
  blank text = true ->
  emotion_detector text w = (Ok EMPTY_RESULT, w) /\
  all_null EMPTY_RESULT /\
  sent (emotion_detector text w).2 = sent w.
Proof.
  intros Hb. rewrite emotion_detector_blank by done.
  split; [done|]. split; [apply sentinel_all_null|done].
Qed.

(** C3 (amended). For a response with status 400, or whose body fails to
    parse, or whose parsed body is a JSON object in which emotionPredictions
    is missing or an empty list, the sentinel comes back and no error is
    raised. *)
Theorem rejected_response_returns_sentinel (text : string) (w : World)
    (resp : Response) :
  blank text = false ->
  remote w (watson_request text) = Ok resp ->
  (status_code resp = 400 \/
   (exists e, json resp = Raise e) \/
   (exists body : gmap string pyval,
      json resp = Ok (PDict body) /\
      (body !! "emotionPredictions" = None \/
       body !! "emotionPredictions" = Some (PList [])))) ->
  emotion_detector text w = (Ok EMPTY_RESULT, after_call w text) /\
  all_null EMPTY_RESULT.
Proof.
  intros Hb Hr Hcase. split; [|apply sentinel_all_null].
  rewrite emotion_detector_call, Hr by done. f_equal.
  destruct Hcase as [Hs|[[e He]|(body & Hj & Hp)]].
  - by apply digest_400.
  - unfold digest. rewrite He. by destruct (status_code resp =? 400)%Z.
  - unfold digest. rewrite Hj. simpl.
    destruct (status_code resp =? 400)%Z; [done|].
    by destruct Hp as [-> | ->].
Qed.

(** C4. With a response whose status is not 400 and whose body has one or
    more prediction entries, the outcome is that of any other such response
    with the same first entry, whatever the later entries; and when the
    first entry's emotion mapping gives, for each of the five keys, 0.0 if
    the key is missing and else its value coerced to a float, these five
    floats are the scores of the record returned. *)
Theorem scores_from_first_entry (text : string) (w : World) (resp : Response)
    (body : gmap string pyval) (entry : pyval) (more : list pyval) :
  blank text = false ->
  remote w (watson_request text) = Ok resp ->
  status_code resp <> 400 ->
  json resp = Ok (PDict body) ->
  body !! "emotionPredictions" = Some (PList (entry :: more)) ->
  (forall (w2 : World) (resp2 : Response) (body2 : gmap string pyval)
          (more2 : list pyval),
     remote w2 (watson_request text) = Ok resp2 ->
     status_code resp2 <> 400 ->
     json resp2 = Ok (PDict body2) ->
     body2 !! "emotionPredictions" = Some (PList (entry :: more2)) ->
     (emotion_detector text w2).1 = (emotion_detector text w).1) /\
  (forall (fields scores : gmap string pyval) (a d f j s : float),
     entry = PDict fields ->
     default (PDict ∅) (fields !! "emotion") = PDict scores ->
     reads scores "anger" a -> reads scores "disgust" d ->
     reads scores "fear" f -> reads scores "joy" j -> reads scores "sadness" s ->
     exists r,
       (emotion_detector text w).1 = Ok r /\
       r !! "anger" = Some (VFloat a) /\ r !! "disgust" = Some (VFloat d) /\
       r !! "fear" = Some (VFloat f) /\ r !! "joy" = Some (VFloat j) /\
       r !! "sadness" = Some (VFloat s)).
Proof.
  intros Hb Hr Hs Hj Hp. split.
  - intros w2 resp2 body2 more2 Hr2 Hs2 Hj2 Hp2.
    rewrite !emotion_detector_call, Hr, Hr2 by done. simpl.
    rewrite (digest_first_entry resp body entry more) by done.
    by rewrite (digest_first_entry resp2 body2 entry more2).
  - intros fields scores a d f j s -> He Ha Hd Hf Hy Hsd.
    eexists. split.
    + rewrite emotion_detector_call, Hr by done. simpl.
      apply digest_yields; [done|]. by exists body, fields, more, scores.
    + by repeat split.
Qed.

(** C5. Whatever the method of the request, when the record that comes back
    has a null dominant_emotion the handler answers the fixed line with
    status 200; otherwise the record is populated and the handler answers,
    with status 200, the sentence with the five scores and the dominant
    emotion. *)
Theorem route_response (request : FlaskRequest) (w w' : World) (r : Result) :
  emotion_detector (request_text request) w = (Ok r, w') ->
  (r !! "dominant_emotion" = Some VNone ->
   emotion_detector_route request w =
     (Ok ("Invalid text! Please try again!", 200), w')) /\
  (r !! "dominant_emotion" <> Some VNone ->
   exists a d f j s k,
     r = populated a d f j s k /\
     emotion_detector_route request w =
       (Ok ("For the given statement, the system response is 'anger': "
            +:+ float_repr a +:+ ", 'disgust': " +:+ float_repr d
            +:+ ", 'fear': " +:+ float_repr f +:+ ", 'joy': " +:+ float_repr j
            +:+ " and 'sadness': " +:+ float_repr s
            +:+ ". The dominant emotion is " +:+ k +:+ ".", 200), w')).
Proof.
  intros Hr.
  assert (emotion_detector_route request w =
            (dom ← lift (getitem r "dominant_emotion");
             if is_None dom then mret ("Invalid text! Please try again!", 200)
             else
               formatted ← lift (
                 anger ← getitem r "anger";
                 disgust ← getitem r "disgust";
                 fear ← getitem r "fear";
                 joy ← getitem r "joy";
                 sadness ← getitem r "sadness";
                 dominant ← getitem r "dominant_emotion";
                 mret ("For the given statement, the system response is "
                       +:+ "'anger': " +:+ format_value anger
                       +:+ ", 'disgust': " +:+ format_value disgust +:+ ", "
                       +:+ "'fear': " +:+ format_value fear
                       +:+ ", 'joy': " +:+ format_value joy +:+ " and "
                       +:+ "'sadness': " +:+ format_value sadness
                       +:+ ". The dominant emotion is "
                       +:+ format_value dominant +:+ "."));
               mret (formatted, 200)) w') as ->.
  { unfold emotion_detector_route. fold (request_text request). cbv zeta.
    unfold mbind at 1, M_bind at 1. by rewrite Hr. }
  destruct (emotion_detector_shape _ _ _ _ Hr) as [->|(a & d & f & j & s & ->)].
  - split; [done|]. intros Hne. by destruct Hne.
  - split; [by intros [=]|]. intros _. eexists a, d, f, j, s, _.
    split; [reflexivity|].
    destruct (getitem_populated a d f j s
                (py_max snd ("anger", a)
                   [("disgust", d); ("fear", f); ("joy", j); ("sadness", s)]).1)
      as (Ha & Hd & Hf & Hj & Hs & Hk).
    unfold mbind, M_bind, res_bind, lift. rewrite Hk.
    cbn [is_None]. by rewrite Ha, Hd, Hf, Hj, Hs.
Qed.

(** C6. When the outbound call, made with timeout 10, fails with an
    exception, that exception comes out of emotion_detector, and out of the
    handler that called it: no record is returned. *)
Theorem transport_failure_propagates (text : string) (w : World) (e : exn) :
  blank text = false ->
  remote w (watson_request text) = Raise e ->
  req_timeout (watson_request text) = 10 /\
  emotion_detector text w = (Raise e, after_call w text) /\
  (forall request : FlaskRequest,
     request_text request = text ->
     emotion_detector_route request w = (Raise e, after_call w text)).
Proof.
  intros Hb Hr. split; [done|].
  assert (emotion_detector text w = (Raise e, after_call w text)) as He.
  { by rewrite emotion_detector_call, Hr. }
  split; [done|]. intros request <-.
  unfold emotion_detector_route. fold (request_text request). cbv zeta.
  unfold mbind at 1, M_bind at 1. by rewrite He.
Qed.

(** C7 (amended). A record that emotion_detector returns is either the
    sentinel, all six fields null, or has all six fields populated with
    dominant_emotion one of the five keys, which is the key with the maximum
    score, the earliest among equal scores, when no score is NaN. *)
Theorem all_or_nothing (text : string) (w w' : World) (r : Result) :
  emotion_detector text w = (Ok r, w') ->
  (r = EMPTY_RESULT /\ all_null r) \/
  (exists a d f j s k,
     r = populated a d f j s k /\
     k ∈ emotion_keys /\
     (no_nan (score_list a d f j s) -> dominant_spec (score_list a d f j s) k)).
Proof.
  intros Hr.
  destruct (emotion_detector_shape _ _ _ _ Hr) as [->|(a & d & f & j & s & ->)].
  - left. split; [done|apply sentinel_all_null].
  - right. eexists a, d, f, j, s, _. split; [done|]. split.
    + apply dominant_key.
    + apply dominant_no_nan.
Qed.

(** C8. A GET request with a value in the query parameter textToAnalyze and
    a POST request with the same value in the form field textToAnalyze get
    the same outcome from the handler. *)
Theorem get_post_equivalent (get post : FlaskRequest) (v : string) (w : World) :
  method get = "GET" ->
  method post = "POST" ->
  multidict_get (args get) "textToAnalyze" = Some v ->
  multidict_get (form post) "textToAnalyze" = Some v ->
  emotion_detector_route get w = emotion_detector_route post w.
Proof.
  intros Hg Hp Ha Hf. unfold emotion_detector_route.
  by rewrite Hg, Hp, Ha, Hf.
Qed.

(** C9 (amended). For a response whose first prediction entry yields the
    five scores, the sentinel comes back when the status is 400, and with
    any other status, 404, 422 or 500 included, a populated record comes
    back, which is not the sentinel. *)
Theorem only_400_is_rejected (text : string) (w : World) (resp : Response)
    (a d f j s : float) :
  blank text = false ->
  remote w (watson_request text) = Ok resp ->
  yields resp a d f j s ->
  (status_code resp = 400 ->
   emotion_detector text w = (Ok EMPTY_RESULT, after_call w text)) /\
  (status_code resp <> 400 ->
   exists k,
     emotion_detector text w = (Ok (populated a d f j s k), after_call w text) /\
     populated a d f j s k <> EMPTY_RESULT).
Proof.
  intros Hb Hr Hy. rewrite emotion_detector_call, Hr by done. split.
  - intros Hs. by rewrite digest_400.
  - intros Hs. eexists. split; [by erewrite digest_yields|].
    apply populated_not_sentinel.
Qed.

(** C10. When the body parses, the status is not 400 and the emotion mapping
    of the first prediction entry has, under one of the five keys, a value
    that float does not accept, emotion_detector raises: no record, the
    sentinel included, comes back. *)
Theorem uncoercible_score_raises (text : string) (w : World) (resp : Response)
    (body entry : gmap string pyval) (more : list pyval)
    (scores : gmap string pyval) (k : string) (v : pyval) (e : exn) :
  blank text = false ->
  remote w (watson_request text) = Ok resp ->
  status_code resp <> 400 ->
  json resp = Ok (PDict body) ->
  body !! "emotionPredictions" = Some (PList (PDict entry :: more)) ->
  entry !! "emotion" = Some (PDict scores) ->
  k ∈ emotion_keys ->
  scores !! k = Some v ->
  py_float v = Raise e ->
  exists e', emotion_detector text w = (Raise e', after_call w text).
Proof.
  intros Hb Hr Hs Hj Hp He Hk Hv Hf.
  rewrite emotion_detector_call, Hr by done.
  rewrite (digest_first_entry resp body (PDict entry) more) by done.
  unfold from_entry. simpl. rewrite He. simpl.
  assert (score (PDict scores) k = Raise e) as Hsc.
  { unfold score. simpl. by rewrite Hv. }
  destruct (score (PDict scores) "anger") as [a|e1] eqn:E1; simpl; [|by eexists].
  destruct (score (PDict scores) "disgust") as [d|e2] eqn:E2; simpl; [|by eexists].
  destruct (score (PDict scores) "fear") as [f|e3] eqn:E3; simpl; [|by eexists].
  destruct (score (PDict scores) "joy") as [j|e4] eqn:E4; simpl; [|by eexists].
  destruct (score (PDict scores) "sadness") as [s|e5] eqn:E5; simpl; [|by eexists].
  unfold emotion_keys in Hk.
  repeat (apply elem_of_cons in Hk as [->|Hk]; [congruence|]).
  by apply elem_of_nil in Hk.
Qed.

End Claims.

(** ** The claims on sample inputs *)

Section Samples.
Import Float.

Lemma dominant_is_first_maximum_witness :
  exists k,
    @emotion_detector sample_builtins "I am glad" (answering 200 (Ok glad_body)) =
      (Ok (populated half zero zero one one k),
       after_call (answering 200 (Ok glad_body)) "I am glad") /\
    dominant_spec (score_list half zero zero one one) k /\
    (Float.eq half zero = true -> Float.eq half zero = true ->
     Float.eq half one = true -> Float.eq half one = true -> k = "anger").
Proof.
  apply (@dominant_is_first_maximum sample_builtins "I am glad"
           (answering 200 (Ok glad_body)) (mkResponse 200 (Ok glad_body))).
  - reflexivity.
  - reflexivity.
  - discriminate.
  - eexists _, _, _, _. repeat split; reflexivity.
  - repeat constructor.
Defined.

(** C1 as stated fails: with anger NaN and joy 0.5 the record says anger,
    whose score is not the maximum. *)
Lemma nan_anger_is_reported_dominant :
  @yields sample_builtins (mkResponse 200 (Ok nan_anger_body)) nan zero zero half zero /\
  @emotion_detector sample_builtins "hello" (answering 200 (Ok nan_anger_body)) =
    (Ok (populated nan zero zero half zero "anger"),
     after_call (answering 200 (Ok nan_anger_body)) "hello") /\
  ~ dominant_spec (score_list nan zero zero half zero) "anger".
Proof.
  split; [|split].
  - eexists _, _, _, _. repeat split; reflexivity.
  - by vm_compute.
  - intros (i & v & Hi & Hle & _).
    destruct i as [|[|[|[|[|i]]]]]; simpl in Hi; try discriminate Hi.
    injection Hi as <-. by specialize (Hle 3%nat ("joy", half) eq_refl).
Qed.

Lemma blank_text_returns_sentinel_witness :
  blank "  " = true /\
  @emotion_detector sample_builtins "  " (answering 200 (Ok glad_body)) =
    (Ok EMPTY_RESULT, answering 200 (Ok glad_body)) /\
  all_null EMPTY_RESULT /\
  sent (@emotion_detector sample_builtins "  " (answering 200 (Ok glad_body))).2 =
    sent (answering 200 (Ok glad_body)).
Proof.
  split; [reflexivity|].
  apply (@blank_text_returns_sentinel sample_builtins). reflexivity.
Defined.

Lemma rejected_response_returns_sentinel_witness :
  @emotion_detector sample_builtins "hello" (answering 400 (Raise JSONDecodeError)) =
    (Ok EMPTY_RESULT, after_call (answering 400 (Raise JSONDecodeError)) "hello") /\
  all_null EMPTY_RESULT.
Proof.
  apply (@rejected_response_returns_sentinel sample_builtins "hello"
           (answering 400 (Raise JSONDecodeError))
           (mkResponse 400 (Raise JSONDecodeError))).
  - reflexivity.
  - reflexivity.
  - left. reflexivity.
Defined.

(** C3 as stated fails: the body [[]] parses and holds no prediction entry,
    and the call raises. *)
Lemma list_body_raises :
  prediction_entries (PList []) = [] /\
  @emotion_detector sample_builtins "hello" (answering 200 (Ok (PList []))) =
    (Raise AttributeError, after_call (answering 200 (Ok (PList []))) "hello").
Proof. split; reflexivity. Qed.

Lemma scores_from_first_entry_witness :
  (forall (w2 : World) (resp2 : Response) (body2 : gmap string pyval)
          (more2 : list pyval),
     remote w2 (watson_request "hello") = Ok resp2 ->
     status_code resp2 <> 400 ->
     json resp2 = Ok (PDict body2) ->
     body2 !! "emotionPredictions" =
       Some (PList (PDict {[ "emotion" := PDict {[ "anger" := PInt 1; "joy" := PFloat half ]} ]}
                    :: more2)) ->
     (@emotion_detector sample_builtins "hello" w2).1 =
     (@emotion_detector sample_builtins "hello" (answering 200 (Ok two_entries_body))).1) /\
  (forall (fields scores : gmap string pyval) (a d f j s : float),
     PDict {[ "emotion" := PDict {[ "anger" := PInt 1; "joy" := PFloat half ]} ]} =
       PDict fields ->
     default (PDict ∅) (fields !! "emotion") = PDict scores ->
     @reads sample_builtins scores "anger" a ->
     @reads sample_builtins scores "disgust" d ->
     @reads sample_builtins scores "fear" f ->
     @reads sample_builtins scores "joy" j ->
     @reads sample_builtins scores "sadness" s ->
     exists r,
       (@emotion_detector sample_builtins "hello" (answering 200 (Ok two_entries_body))).1 =
         Ok r /\
       r !! "anger" = Some (VFloat a) /\ r !! "disgust" = Some (VFloat d) /\
       r !! "fear" = Some (VFloat f) /\ r !! "joy" = Some (VFloat j) /\
       r !! "sadness" = Some (VFloat s)).
Proof.
  apply (@scores_from_first_entry sample_builtins "hello"
           (answering 200 (Ok two_entries_body))
           (mkResponse 200 (Ok two_entries_body))
           {[ "emotionPredictions" :=
                PList [PDict {[ "emotion" := PDict {[ "anger" := PInt 1; "joy" := PFloat half ]} ]};
                       PDict {[ "emotion" := PDict {[ "sadness" := PInt 7 ]} ]}] ]}
           (PDict {[ "emotion" := PDict {[ "anger" := PInt 1; "joy" := PFloat half ]} ]})
           [PDict {[ "emotion" := PDict {[ "sadness" := PInt 7 ]} ]}]).
  - reflexivity.
  - reflexivity.
  - discriminate.
  - reflexivity.
  - reflexivity.
Defined.

(** The second entry's sadness 7 is not read: sadness is 0.0 and anger, an
    int in the body, is the float 1.0. *)
Example two_entries_first_wins :
  (@emotion_detector sample_builtins "hello" (answering 200 (Ok two_entries_body))).1 =
    Ok (populated one zero zero half zero "anger").
Proof. by vm_compute. Qed.

(** No emotion mapping at all: five times 0.0, and anger is the dominant one. *)
Example all_equal_gives_anger :
  (@emotion_detector sample_builtins "hello"
     (answering 200 (Ok (PDict {[ "emotionPredictions" := PList [PDict ∅] ]})))).1 =
    Ok (populated zero zero zero zero zero "anger").
Proof. by vm_compute. Qed.

(** Joy and sadness tie at 1.0: joy, the earlier key, is the dominant one. *)
Example tie_goes_to_earlier_key :
  (@emotion_detector sample_builtins "I am glad" (answering 200 (Ok glad_body))).1 =
    Ok (populated half zero zero one one "joy").
Proof. by vm_compute. Qed.

Lemma route_response_witness :
  (populated half zero zero one one "joy" !! "dominant_emotion" = Some VNone ->
   @emotion_detector_route sample_builtins
     (mkFlaskRequest "GET" [("textToAnalyze", " I am glad ")] [])
     (answering 200 (Ok glad_body)) =
     (Ok ("Invalid text! Please try again!", 200),
      after_call (answering 200 (Ok glad_body)) "I am glad")) /\
  (populated half zero zero one one "joy" !! "dominant_emotion" <> Some VNone ->
   exists a d f j s k,
     populated half zero zero one one "joy" = populated a d f j s k /\
     @emotion_detector_route sample_builtins
       (mkFlaskRequest "GET" [("textToAnalyze", " I am glad ")] [])
       (answering 200 (Ok glad_body)) =
       (Ok ("For the given statement, the system response is 'anger': "
            +:+ @float_repr sample_builtins a +:+ ", 'disgust': "
            +:+ @float_repr sample_builtins d +:+ ", 'fear': "
            +:+ @float_repr sample_builtins f +:+ ", 'joy': "
            +:+ @float_repr sample_builtins j +:+ " and 'sadness': "
            +:+ @float_repr sample_builtins s
            +:+ ". The dominant emotion is " +:+ k +:+ ".", 200),
        after_call (answering 200 (Ok glad_body)) "I am glad")).
Proof.
  apply (@route_response sample_builtins
           (mkFlaskRequest "GET" [("textToAnalyze", " I am glad ")] [])
           (answering 200 (Ok glad_body))).
  vm_compute. reflexivity.
Defined.

(** The null branch of the handler, on a POST request with a blank field. *)
Example route_blank_text :
  @emotion_detector_route sample_builtins
    (mkFlaskRequest "POST" [] [("textToAnalyze", "   ")])
    (answering 200 (Ok glad_body)) =
    (Ok ("Invalid text! Please try again!", 200), answering 200 (Ok glad_body)).
Proof. by vm_compute. Qed.

Lemma transport_failure_propagates_witness :
  req_timeout (watson_request "hello") = 10 /\
  @emotion_detector sample_builtins "hello" (unreachable ReadTimeout) =
    (Raise ReadTimeout, after_call (unreachable ReadTimeout) "hello") /\
  (forall request : FlaskRequest,
     request_text request = "hello" ->
     @emotion_detector_route sample_builtins request (unreachable ReadTimeout) =
       (Raise ReadTimeout, after_call (unreachable ReadTimeout) "hello")).
Proof.
  apply (@transport_failure_propagates sample_builtins "hello"
           (unreachable ReadTimeout) ReadTimeout); reflexivity.
Defined.

Lemma all_or_nothing_witness :
  (populated half zero zero one one "joy" = EMPTY_RESULT /\
   all_null (populated half zero zero one one "joy")) \/
  (exists a d f j s k,
     populated half zero zero one one "joy" = populated a d f j s k /\
     k ∈ emotion_keys /\
     (no_nan (score_list a d f j s) -> dominant_spec (score_list a d f j s) k)).
Proof.
  apply (@all_or_nothing sample_builtins "I am glad"
           (answering 200 (Ok glad_body))
           (after_call (answering 200 (Ok glad_body)) "I am glad")).
  vm_compute. reflexivity.
Defined.

(** C7 as stated fails: the record returned for anger "nan" and sadness 1
    is populated, with anger NaN and sadness 1.0, and its dominant_emotion,
    anger, is not the key with the maximum score. *)
Lemma nan_record_breaks_invariant :
  @emotion_detector sample_builtins "hello" (answering 200 (Ok nan_anger_sad_body)) =
    (Ok (populated nan zero zero zero one "anger"),
     after_call (answering 200 (Ok nan_anger_sad_body)) "hello") /\
  ~ all_null (populated nan zero zero zero one "anger") /\
  ~ dominant_spec (score_list nan zero zero zero one) "anger".
Proof.
  split; [by vm_compute|]. split.
  - intros (Ha & _). by vm_compute in Ha.
  - intros (i & v & Hi & Hle & _).
    destruct i as [|[|[|[|[|i]]]]]; simpl in Hi; try discriminate Hi.
    injection Hi as <-. by specialize (Hle 4%nat ("sadness", one) eq_refl).
Qed.

Lemma get_post_equivalent_witness :
  @emotion_detector_route sample_builtins
    (mkFlaskRequest "GET" [("textToAnalyze", "I am glad")] [])
    (answering 200 (Ok glad_body)) =
  @emotion_detector_route sample_builtins
    (mkFlaskRequest "POST" [] [("textToAnalyze", "I am glad")])
    (answering 200 (Ok glad_body)).
Proof.
  apply (@get_post_equivalent sample_builtins
           (mkFlaskRequest "GET" [("textToAnalyze", "I am glad")] [])
           (mkFlaskRequest "POST" [] [("textToAnalyze", "I am glad")])
           "I am glad"); reflexivity.
Defined.

Lemma only_400_is_rejected_witness :
  (status_code (mkResponse 500 (Ok glad_body)) = 400 ->
   @emotion_detector sample_builtins "hello" (answering 500 (Ok glad_body)) =
     (Ok EMPTY_RESULT, after_call (answering 500 (Ok glad_body)) "hello")) /\
  (status_code (mkResponse 500 (Ok glad_body)) <> 400 ->
   exists k,
     @emotion_detector sample_builtins "hello" (answering 500 (Ok glad_body)) =
       (Ok (populated half zero zero one one k),
        after_call (answering 500 (Ok glad_body)) "hello") /\
     populated half zero zero one one k <> EMPTY_RESULT).
Proof.
  apply (@only_400_is_rejected sample_builtins "hello"
           (answering 500 (Ok glad_body)) (mkResponse 500 (Ok glad_body))).
  - reflexivity.
  - reflexivity.
  - eexists _, _, _, _. repeat split; reflexivity.
Defined.

(** C9 as stated fails: status 500, a body that parses and has a prediction
    entry, and the call raises instead of returning a populated record. *)
Lemma null_score_raises_on_500 :
  status_code (mkResponse 500 (Ok null_anger_body)) <> 400 /\
  length (prediction_entries null_anger_body) = 1%nat /\
  @emotion_detector sample_builtins "hello" (answering 500 (Ok null_anger_body)) =
    (Raise TypeError, after_call (answering 500 (Ok null_anger_body)) "hello").
Proof. split; [done|]. split; by vm_compute. Qed.

Lemma uncoercible_score_raises_witness :
  @py_float sample_builtins (PStr "high") = Raise ValueError /\
  exists e',
    @emotion_detector sample_builtins "hello" (answering 200 (Ok text_anger_body)) =
      (Raise e', after_call (answering 200 (Ok text_anger_body)) "hello").
Proof.
  split; [reflexivity|].
  apply (@uncoercible_score_raises sample_builtins "hello"
           (answering 200 (Ok text_anger_body)) (mkResponse 200 (Ok text_anger_body))
           {[ "emotionPredictions" :=
                PList [PDict {[ "emotion" := PDict {[ "anger" := PStr "high" ]} ]}] ]}
           {[ "emotion" := PDict {[ "anger" := PStr "high" ]} ]}
           [] {[ "anger" := PStr "high" ]} "anger" (PStr "high") ValueError).
  - reflexivity.
  - reflexivity.
  - discriminate.
  - reflexivity.
  - reflexivity.
  - reflexivity.
  - apply list_elem_of_here.
  - reflexivity.
  - reflexivity.
Defined.

(** The exception in that case is the [ValueError] of [float]. *)
Example text_score_raises_ValueError :
  (@emotion_detector sample_builtins "hello" (answering 200 (Ok text_anger_body))).1 =
    Raise ValueError.
Proof. reflexivity. Qed.

(** A body that is not a JSON object, or whose emotionPredictions is not a
    list, raises as well. *)
Example string_predictions_raise :
  (@emotion_detector sample_builtins "hello"
     (answering 200 (Ok (PDict {[ "emotionPredictions" := PStr "none" ]})))).1 =
    Raise AttributeError.
Proof. reflexivity. Qed.

End Samples.

(** * More of the detector *)

Section Edges.
Context `{Builtins}.

Lemma digest_body (resp : Response) (data : pyval) :
  status_code resp <> 400 ->
  json resp = Ok data ->
  digest resp =
    (preds ← dict_get data "emotionPredictions" (PList []);
     if negb (truthy preds) then Ok EMPTY_RESULT
     else entry ← getitem0 preds; from_entry entry).
Proof.
  intros Hs Hj. unfold digest. apply Z.eqb_neq in Hs. by rewrite Hs, Hj.
Qed.

(** X1. Whatever the outcome, the remote service is the same afterwards and
    the log has grown by nothing for a blank text and by one request
    otherwise: to the fixed URL, with the model header, the text as given in
    the payload and timeout 10. *)
Theorem at_most_one_request (text : string) (w : World) :
  remote (emotion_detector text w).2 = remote w /\
  sent (emotion_detector text w).2 =
    sent w ++ (if blank text then []
               else [mkRequest WATSON_URL HEADERS
                       (PDict {[ "raw_document" := PDict {[ "text" := PStr text ]} ]})
                       10]).
Proof.
  destruct (blank text) eqn:Hb.
  - rewrite emotion_detector_blank by done. simpl. by rewrite app_nil_r.
  - by rewrite emotion_detector_call.
Qed.

(** X2. A body that parses to anything but a JSON object makes the call
    raise AttributeError, when the status is not 400. *)
Theorem non_object_body_raises (text : string) (w : World) (resp : Response)
    (data : pyval) :
  blank text = false ->
  remote w (watson_request text) = Ok resp ->
  status_code resp <> 400 ->
  json resp = Ok data ->
  (forall d, data <> PDict d) ->
  emotion_detector text w = (Raise AttributeError, after_call w text).
Proof.
  intros Hb Hr Hs Hj Hd. rewrite emotion_detector_call, Hr by done.
  rewrite (digest_body resp data) by done.
  destruct data; try done. by destruct (Hd d).
Qed.

Lemma truthy_false (v : pyval) : truthy v = false <-> falsy v.
Proof.
  unfold falsy. split.
  - destruct v as [|b|n|f|s|l|d]; simpl.
    + by left.
    + intros ->. right. by left.
    + intros Hn%negb_false_iff%Z.eqb_eq. subst. right. right. by left.
    + intros Hf%negb_false_iff. do 3 right. left.
      destruct f as [sign|[]| |[] m e]; try done. by exists sign.
    + destruct s; [|done]. intros _. do 4 right. by left.
    + destruct l; [|done]. intros _. do 5 right. by left.
    + intros Hd%negb_false_iff%bool_decide_eq_true. subst. by do 6 right.
  - by intros [->|[->|[->|[[sign ->]|[->|[->| ->]]]]]].
Qed.

(** X3. When the body is a JSON object whose emotionPredictions is null,
    false, 0, 0.0, -0.0, the empty string, the empty list or the empty
    object, the sentinel comes back. *)
Theorem falsy_predictions_return_sentinel (text : string) (w : World)
    (resp : Response) (body : gmap string pyval) (v : pyval) :
  blank text = false ->
  remote w (watson_request text) = Ok resp ->
  json resp = Ok (PDict body) ->
  body !! "emotionPredictions" = Some v ->
  falsy v ->
  emotion_detector text w = (Ok EMPTY_RESULT, after_call w text).
Proof.
  intros Hb Hr Hj Hp Hv%truthy_false. rewrite emotion_detector_call, Hr by done.
  f_equal. destruct (decide (status_code resp = 400)) as [Hs|Hs].
  - by apply digest_400.
  - rewrite (digest_body resp (PDict body)) by done. simpl. rewrite Hp. simpl. by rewrite Hv.
Qed.

(** X4. When emotionPredictions is there, is not a list and is not one of
    those values, the call raises: AttributeError for a string, KeyError
    for an object, TypeError for true or a number. *)
Theorem non_list_predictions_raise (text : string) (w : World)
    (resp : Response) (body : gmap string pyval) (v : pyval) :
  blank text = false ->
  remote w (watson_request text) = Ok resp ->
  status_code resp <> 400 ->
  json resp = Ok (PDict body) ->
  body !! "emotionPredictions" = Some v ->
  truthy v = true ->
  (forall l, v <> PList l) ->
  emotion_detector text w =
    (Raise match v with
           | PStr _ => AttributeError
           | PDict _ => KeyError
           | _ => TypeError
           end, after_call w text).
Proof.
  intros Hb Hr Hs Hj Hp Hv Hl. rewrite emotion_detector_call, Hr by done.
  rewrite (digest_body resp (PDict body)) by done. simpl. rewrite Hp. simpl. rewrite Hv. simpl.
  destruct v as [|b|n|f|s|l|d]; try done.
  - by destruct s.
  - by destruct (Hl l).
Qed.

(** X5. When the first prediction entry is not a JSON object, or is one
    whose emotion value is not a JSON object, the call raises
    AttributeError. *)
Theorem non_object_entry_raises (text : string) (w : World) (resp : Response)
    (body : gmap string pyval) (entry : pyval) (more : list pyval) :
  blank text = false ->
  remote w (watson_request text) = Ok resp ->
  status_code resp <> 400 ->
  json resp = Ok (PDict body) ->
  body !! "emotionPredictions" = Some (PList (entry :: more)) ->
  ((forall fields, entry <> PDict fields) \/
   (exists (fields : gmap string pyval) (v : pyval),
      entry = PDict fields /\ fields !! "emotion" = Some v /\
      forall scores, v <> PDict scores)) ->
  emotion_detector text w = (Raise AttributeError, after_call w text).
Proof.
  intros Hb Hr Hs Hj Hp He. rewrite emotion_detector_call, Hr by done.
  rewrite (digest_first_entry resp body entry more) by done. unfold from_entry.
  destruct He as [He|(fields & v & -> & Hv & Hn)].
  - destruct entry; try done. by destruct (He d).
  - simpl. rewrite Hv. simpl. unfold score.
    destruct v; try done. by destruct (Hn d).
Qed.

End Edges.

Section Inversion.
Context `{Builtins}.

Lemma score_ok (scores : pyval) (k : string) (x : float) :
  score scores k = Ok x ->
  exists sc : gmap string pyval, scores = PDict sc /\ reads sc k x.
Proof.
  unfold score, reads. destruct scores as [| | | | | |sc]; try done. simpl.
  intros Hx. exists sc. split; [done|].
  destruct (sc !! k); simpl in Hx; [done|]. by injection Hx as <-.
Qed.

Lemma from_entry_ok (entry : pyval) (r : Result) :
  from_entry entry = Ok r ->
  exists (fields scores : gmap string pyval) (a d f j s : float),
    entry = PDict fields /\
    default (PDict ∅) (fields !! "emotion") = PDict scores /\
    reads scores "anger" a /\ reads scores "disgust" d /\ reads scores "fear" f /\
    reads scores "joy" j /\ reads scores "sadness" s /\
    r = populated a d f j s
          (py_max snd ("anger", a)
             [("disgust", d); ("fear", f); ("joy", j); ("sadness", s)]).1.
Proof.
  unfold from_entry. destruct entry as [| | | | | |fields]; try done. simpl.
  destruct (score _ "anger") as [a|] eqn:Ea; simpl; [|done].
  destruct (score _ "disgust") as [d|] eqn:Ed; simpl; [|done].
  destruct (score _ "fear") as [f|] eqn:Ef; simpl; [|done].
  destruct (score _ "joy") as [j|] eqn:Ej; simpl; [|done].
  destruct (score _ "sadness") as [s|] eqn:Es; simpl; [|done].
  intros [= <-].
  apply score_ok in Ea as (sc & Hsc & Ha). rewrite Hsc in *.
  apply score_ok in Ed as (? & [= <-] & Hd).
  apply score_ok in Ef as (? & [= <-] & Hf).
  apply score_ok in Ej as (? & [= <-] & Hj).
  apply score_ok in Es as (? & [= <-] & Hs).
  by exists fields, sc, a, d, f, j, s.
Qed.

Lemma digest_ok (resp : Response) (r : Result) :
  digest resp = Ok r ->
  r = EMPTY_RESULT /\
    (status_code resp = 400 \/ (exists e, json resp = Raise e) \/
     exists body : gmap string pyval,
       json resp = Ok (PDict body) /\
       (body !! "emotionPredictions" = None \/
        exists v, body !! "emotionPredictions" = Some v /\ falsy v))
  \/
  exists a d f j s,
    status_code resp <> 400 /\ yields resp a d f j s /\
    r = populated a d f j s
          (py_max snd ("anger", a)
             [("disgust", d); ("fear", f); ("joy", j); ("sadness", s)]).1.
Proof.
  unfold digest. destruct (status_code resp =? 400)%Z eqn:Hs.
  { intros [= <-]. left. split; [done|]. left. by apply Z.eqb_eq. }
  apply Z.eqb_neq in Hs.
  destruct (json resp) as [data|e] eqn:Hj.
  2:{ intros [= <-]. left. split; [done|]. right. left. by exists e. }
  destruct data as [| | | | | |body]; try done. simpl.
  destruct (body !! "emotionPredictions") as [v|] eqn:Hp; simpl.
  2:{ intros [= <-]. left. split; [done|]. do 2 right. exists body. split; [done|]. by left. }
  destruct (truthy v) eqn:Hv; simpl.
  2:{ intros [= <-]. left. split; [done|]. do 2 right. exists body. split; [done|].
      right. exists v. split; [done|]. by apply truthy_false. }
  destruct (getitem0 v) as [entry|] eqn:Hg; simpl; [|done].
  intros (fields & scores & a & d & f & j & s & -> & He & Ha & Hd & Hf & Hy & Hsd & ->)%from_entry_ok.
  right. exists a, d, f, j, s. split; [done|]. split; [|done].
  destruct v as [| | | |str|l|]; try done.
  - by destruct str.
  - destruct l as [|x more]; [done|]. injection Hg as ->.
    by exists body, fields, more, scores.
Qed.

(** X7. A record other than the sentinel comes back only for a text that is
    not blank, after one request, from a response whose status is not 400
    and whose first prediction entry yields the very five scores of the
    record. *)
Theorem record_comes_from_first_entry (text : string) (w w' : World) (r : Result) :
  emotion_detector text w = (Ok r, w') ->
  r <> EMPTY_RESULT ->
  blank text = false /\ w' = after_call w text /\
  exists resp a d f j s k,
    remote w (watson_request text) = Ok resp /\
    status_code resp <> 400 /\
    yields resp a d f j s /\
    r = populated a d f j s k.
Proof.
  intros Hr Hne. destruct (blank text) eqn:Hb.
  { rewrite emotion_detector_blank in Hr by done. by injection Hr as <- _. }
  rewrite emotion_detector_call in Hr by done.
  destruct (remote w (watson_request text)) as [resp|e]; [|done].
  injection Hr as Hd <-. split; [done|]. split; [done|].
  apply digest_ok in Hd as [[-> _]|(a & d & f & j & s & Hs & Hy & ->)]; [done|].
  by eexists resp, a, d, f, j, s, _.
Qed.

(** X8. The sentinel comes back only for a blank text, with nothing sent, or
    after one request answered with status 400, or with a body that fails
    to parse, or with a JSON object whose emotionPredictions is missing or
    one of null, false, 0, 0.0, -0.0, the empty string, list or object. *)
Theorem sentinel_has_a_cause (text : string) (w w' : World) :
  emotion_detector text w = (Ok EMPTY_RESULT, w') ->
  (blank text = true /\ w' = w) \/
  (blank text = false /\ w' = after_call w text /\
   exists resp,
     remote w (watson_request text) = Ok resp /\
     (status_code resp = 400 \/ (exists e, json resp = Raise e) \/
      exists body : gmap string pyval,
        json resp = Ok (PDict body) /\
        (body !! "emotionPredictions" = None \/
         exists v, body !! "emotionPredictions" = Some v /\ falsy v))).
Proof.
  intros Hr. destruct (blank text) eqn:Hb.
  { rewrite emotion_detector_blank in Hr by done. left. by injection Hr as <-. }
  right. rewrite emotion_detector_call in Hr by done.
  destruct (remote w (watson_request text)) as [resp|e]; [|done].
  injection Hr as Hd <-. split; [done|]. split; [done|]. exists resp. split; [done|].
  apply digest_ok in Hd as [[_ Hc]|(a & d & f & j & s & _ & _ & Hp)]; [done|].
  symmetry in Hp. by apply populated_not_sentinel in Hp.
Qed.

End Inversion.

Section Scanning.
Context {A : Type} (key : A -> float).

(** With any floats, NaN included: the element [max] gives is either the
    first one or strictly greater than it, and nothing after it is strictly
    greater than it. *)
Lemma py_max_scan_any (first0 : A) (rest : list A) :
  forall (pre : list A) (m : A) (mid whole : list A),
    whole = pre ++ m :: mid ++ rest ->
    (pre = [] /\ m = first0 \/ Float.gt (key m) (key first0) = true) ->
    Forall (fun x => Float.gt (key x) (key m) = false) mid ->
    exists pre' post',
      whole = pre' ++ py_max key m rest :: post' /\
      (pre' = [] /\ py_max key m rest = first0 \/
       Float.gt (key (py_max key m rest)) (key first0) = true) /\
      Forall (fun x => Float.gt (key x) (key (py_max key m rest)) = false) post'.
Proof.
  induction rest as [|x rest IH]; intros pre m mid whole Hw Hm Hmid.
  - exists pre, mid. by rewrite app_nil_r in Hw.
  - unfold py_max. simpl. fold (py_max key (if Float.gt (key x) (key m) then x else m) rest).
    destruct (Float.gt (key x) (key m)) eqn:Hgt.
    + apply (IH (pre ++ m :: mid) x [] whole).
      * rewrite Hw. by rewrite <- !app_assoc.
      * right. destruct Hm as [[_ ->]|Hm]; [done|].
        by apply FloatOrder.gt_trans with (key m).
      * constructor.
    + apply (IH pre m (mid ++ [x]) whole).
      * rewrite Hw. by rewrite <- !app_assoc.
      * done.
      * apply Forall_app. split; [done|]. by repeat constructor.
Qed.

Lemma py_max_any (first : A) (rest : list A) :
  exists i,
    (first :: rest) !! i = Some (py_max key first rest) /\
    (forall j x, (i < j)%nat -> (first :: rest) !! j = Some x ->
                 Float.gt (key x) (key (py_max key first rest)) = false) /\
    (i <> 0%nat -> Float.gt (key (py_max key first rest)) (key first) = true).
Proof.
  destruct (py_max_scan_any first rest [] first [] (first :: rest))
    as (pre & post & Heq & Hfirst & Hpost); [done|by left|constructor|].
  exists (length pre). rewrite Heq. split; [|split].
  - by rewrite list_lookup_middle.
  - intros j x Hlt Hj.
    rewrite lookup_app_r in Hj by lia.
    destruct (j - length pre)%nat as [|n] eqn:Hn; [lia|]. simpl in Hj.
    apply list_elem_of_lookup_2 in Hj. by eapply Forall_forall in Hpost.
  - intros Hi. destruct Hfirst as [[-> _]|Hgt]; done.
Qed.
End Scanning.

Section Scores.
Context `{Builtins}.

(** X6. The exception that comes out is that of the first of the five keys,
    in the order anger, disgust, fear, joy, sadness, whose value float does
    not accept. *)
Theorem first_failing_key_decides (text : string) (w : World) (resp : Response)
    (body entry : gmap string pyval) (more : list pyval)
    (scores : gmap string pyval) (pre : list string) (k : string)
    (post : list string) (v : pyval) (e : exn) :
  blank text = false ->
  remote w (watson_request text) = Ok resp ->
  status_code resp <> 400 ->
  json resp = Ok (PDict body) ->
  body !! "emotionPredictions" = Some (PList (PDict entry :: more)) ->
  default (PDict ∅) (entry !! "emotion") = PDict scores ->
  emotion_keys = pre ++ k :: post ->
  (forall k', k' ∈ pre -> exists x, reads scores k' x) ->
  scores !! k = Some v ->
  py_float v = Raise e ->
  emotion_detector text w = (Raise e, after_call w text).
Proof.
  intros Hb Hr Hs Hj Hp He Hk Hpre Hv Hf.
  rewrite emotion_detector_call, Hr by done.
  rewrite (digest_first_entry resp body (PDict entry) more) by done.
  unfold from_entry. simpl. rewrite He. simpl.
  assert (score (PDict scores) k = Raise e) as Hsc.
  { unfold score. simpl. by rewrite Hv. }
  assert (forall k', k' ∈ pre -> exists x, score (PDict scores) k' = Ok x) as Hok.
  { intros k' Hin. destruct (Hpre k' Hin) as [x Hx]. exists x. by apply score_reads. }
  unfold emotion_keys in Hk.
  destruct pre as [|p1 pre]; simpl in Hk; injection Hk as <- Hk.
  { by rewrite Hsc. }
  destruct (Hok "anger") as [a ->]; [by left|]. simpl.
  destruct pre as [|p2 pre]; simpl in Hk; injection Hk as <- Hk.
  { by rewrite Hsc. }
  destruct (Hok "disgust") as [d ->]; [right; by left|]. simpl.
  destruct pre as [|p3 pre]; simpl in Hk; injection Hk as <- Hk.
  { by rewrite Hsc. }
  destruct (Hok "fear") as [f ->]; [do 2 right; by left|]. simpl.
  destruct pre as [|p4 pre]; simpl in Hk; injection Hk as <- Hk.
  { by rewrite Hsc. }
  destruct (Hok "joy") as [j ->]; [do 3 right; by left|]. simpl.
  destruct pre as [|p5 pre]; simpl in Hk; [injection Hk as <- Hk|].
  { by rewrite Hsc. }
  by destruct pre.
Qed.

(** X9. With any five scores, NaN included: no key after the dominant one,
    in the fixed order, has a strictly greater score, and a dominant key
    other than anger has a score strictly greater than that of anger. *)
Theorem dominant_is_not_beaten_later (text : string) (w : World) (resp : Response)
    (a d f j s : float) :
  blank text = false ->
  remote w (watson_request text) = Ok resp ->
  status_code resp <> 400 ->
  yields resp a d f j s ->
  exists (k : string) (i : nat) (v : float),
    emotion_detector text w = (Ok (populated a d f j s k), after_call w text) /\
    score_list a d f j s !! i = Some (k, v) /\
    (forall i' x, (i < i')%nat -> score_list a d f j s !! i' = Some x ->
                  Float.gt x.2 v = false) /\
    (k <> "anger" -> Float.gt v a = true).
Proof.
  intros Hb Hr Hs Hy.
  destruct (py_max_any snd ("anger", a)
              [("disgust", d); ("fear", f); ("joy", j); ("sadness", s)])
    as (i & Hi & Hlater & Hfirst).
  set (m := py_max _ _ _) in *.
  exists m.1, i, m.2. split; [|split; [|split]].
  - rewrite emotion_detector_call, Hr by done. by erewrite digest_yields.
  - change (score_list a d f j s !! i = Some (m.1, m.2)).
    by rewrite <- surjective_pairing.
  - exact Hlater.
  - intros Hk. apply Hfirst. intros ->. simpl in Hi. injection Hi as Hi.
    by rewrite <- Hi in Hk.
Qed.

(** X10. When the score read for anger is NaN, anger is the dominant
    emotion, whatever the four other scores. *)
Theorem nan_anger_is_dominant (text : string) (w : World) (resp : Response)
    (a d f j s : float) :
  blank text = false ->
  remote w (watson_request text) = Ok resp ->
  status_code resp <> 400 ->
  yields resp a d f j s ->
  Float.is_nan a = true ->
  emotion_detector text w = (Ok (populated a d f j s "anger"), after_call w text).
Proof.
  intros Hb Hr Hs Hy Ha. rewrite emotion_detector_call, Hr by done.
  erewrite digest_yields by done. by destruct a.
Qed.

(** X11. Only the five keys of the first entry's emotion mapping are read:
    two responses whose mappings agree on them get the same outcome,
    whatever else the bodies, the entries and the mappings hold. *)
Theorem only_five_keys_are_read (text : string) (w1 w2 : World)
    (resp1 resp2 : Response) (body1 body2 entry1 entry2 : gmap string pyval)
    (more1 more2 : list pyval) (scores1 scores2 : gmap string pyval) :
  blank text = false ->
  remote w1 (watson_request text) = Ok resp1 ->
  remote w2 (watson_request text) = Ok resp2 ->
  status_code resp1 <> 400 ->
  status_code resp2 <> 400 ->
  json resp1 = Ok (PDict body1) ->
  json resp2 = Ok (PDict body2) ->
  body1 !! "emotionPredictions" = Some (PList (PDict entry1 :: more1)) ->
  body2 !! "emotionPredictions" = Some (PList (PDict entry2 :: more2)) ->
  default (PDict ∅) (entry1 !! "emotion") = PDict scores1 ->
  default (PDict ∅) (entry2 !! "emotion") = PDict scores2 ->
  (forall k, k ∈ emotion_keys -> scores1 !! k = scores2 !! k) ->
  (emotion_detector text w1).1 = (emotion_detector text w2).1.
Proof.
  intros Hb Hr1 Hr2 Hs1 Hs2 Hj1 Hj2 Hp1 Hp2 He1 He2 Hk.
  rewrite !emotion_detector_call, Hr1, Hr2 by done. simpl.
  rewrite (digest_first_entry resp1 body1 (PDict entry1) more1) by done.
  rewrite (digest_first_entry resp2 body2 (PDict entry2) more2) by done.
  unfold from_entry. simpl. rewrite He1, He2. simpl. unfold score. simpl.
  by rewrite !Hk by (unfold emotion_keys; set_solver).
Qed.

(** X12. When the first prediction entry is a JSON object without an emotion
    key, or with an empty emotion object, the record has five times 0.0 and
    anger as the dominant emotion. *)
Theorem missing_emotion_mapping_gives_zeros (text : string) (w : World)
    (resp : Response) (body entry : gmap string pyval) (more : list pyval) :
  blank text = false ->
  remote w (watson_request text) = Ok resp ->
  status_code resp <> 400 ->
  json resp = Ok (PDict body) ->
  body !! "emotionPredictions" = Some (PList (PDict entry :: more)) ->
  entry !! "emotion" = None \/ entry !! "emotion" = Some (PDict ∅) ->
  emotion_detector text w =
    (Ok (populated Float.zero Float.zero Float.zero Float.zero Float.zero "anger"),
     after_call w text).
Proof.
  intros Hb Hr Hs Hj Hp He. rewrite emotion_detector_call, Hr by done.
  rewrite (digest_first_entry resp body (PDict entry) more) by done.
  unfold from_entry. simpl. by destruct He as [-> | ->].
Qed.

End Scores.

(** * More of the handler *)

Lemma rstrip_rstrip (s : string) : rstrip (rstrip s) = rstrip s.
Proof.
  induction s as [|c s IH]; [done|]. simpl.
  destruct (rstrip s) as [|c' t] eqn:Hs.
  - destruct (isspace c) eqn:Hc; [done|]. simpl. by rewrite Hc.
  - simpl in *. by rewrite IH.
Qed.

Lemma rstrip_keeps_head (c : ascii) (t : string) :
  isspace c = false -> exists t', rstrip (String c t) = String c t'.
Proof.
  intros Hc. simpl. rewrite Hc. destruct (rstrip t) as [|c' t']; by eexists.
Qed.

Lemma strip_blank (s : string) : blank s = true -> strip s = EmptyString.
Proof. intros Hb. unfold strip. by rewrite lstrip_blank. Qed.

Lemma strip_not_blank (s : string) :
  blank s = false -> exists c t, strip s = String c t /\ isspace c = false.
Proof.
  intros (c & t & Hl & Hc)%lstrip_not_blank. unfold strip. rewrite Hl.
  destruct (rstrip_keeps_head c t Hc) as [t' Ht]. by exists c, t'.
Qed.

(** Stripping leaves a blank text blank and any other text not blank. *)
Lemma blank_strip (s : string) : blank (strip s) = blank s.
Proof.
  destruct (blank s) eqn:Hb.
  - by rewrite strip_blank.
  - destruct (strip_not_blank s Hb) as (c & t & -> & Hc). unfold blank. simpl.
    by rewrite Hc.
Qed.

(** A stripped text has nothing left to strip. *)
Lemma strip_strip (s : string) : strip (strip s) = strip s.
Proof.
  destruct (blank s) eqn:Hb.
  - by rewrite (strip_blank s Hb).
  - destruct (strip_not_blank s Hb) as (c & t & Hs & Hc).
    unfold strip at 1. rewrite Hs. simpl. rewrite Hc. rewrite <- Hs.
    unfold strip. apply rstrip_rstrip.
Qed.

Lemma request_text_submitted (request : FlaskRequest) :
  request_text request = strip (or_empty (submitted request)).
Proof. unfold request_text, submitted. by destruct (String.eqb _ _). Qed.

Section Handler.
Context `{Builtins}.

Lemma route_step (request : FlaskRequest) (w : World) :
  emotion_detector_route request w =
    match emotion_detector (request_text request) w with
    | (Ok r, w') =>
        (dom ← lift (getitem r "dominant_emotion");
         if is_None dom then mret ("Invalid text! Please try again!", 200)
         else
           formatted ← lift (
             anger ← getitem r "anger";
             disgust ← getitem r "disgust";
             fear ← getitem r "fear";
             joy ← getitem r "joy";
             sadness ← getitem r "sadness";
             dominant ← getitem r "dominant_emotion";
             mret ("For the given statement, the system response is "
                   +:+ "'anger': " +:+ format_value anger
                   +:+ ", 'disgust': " +:+ format_value disgust +:+ ", "
                   +:+ "'fear': " +:+ format_value fear
                   +:+ ", 'joy': " +:+ format_value joy +:+ " and "
                   +:+ "'sadness': " +:+ format_value sadness
                   +:+ ". The dominant emotion is "
                   +:+ format_value dominant +:+ "."));
           mret (formatted, 200)) w'
    | (Raise e, w') => (Raise e, w')
    end.
Proof.
  unfold emotion_detector_route. fold (request_text request). cbv zeta.
  unfold mbind at 1, M_bind at 1.
  by destruct (emotion_detector (request_text request) w) as [[r|e] w'].
Qed.

Lemma route_sentinel (request : FlaskRequest) (w w' : World) :
  emotion_detector (request_text request) w = (Ok EMPTY_RESULT, w') ->
  emotion_detector_route request w =
    (Ok ("Invalid text! Please try again!", 200), w').
Proof. intros Hr. by rewrite route_step, Hr. Qed.

Lemma route_world (request : FlaskRequest) (w : World) :
  (emotion_detector_route request w).2 =
  (emotion_detector (request_text request) w).2.
Proof.
  rewrite route_step.
  destruct (emotion_detector (request_text request) w) as [[r|e] w'] eqn:Hr; [|done].
  destruct (emotion_detector_shape _ _ _ _ Hr) as [->|(a & d & f & j & s & ->)];
    [done|].
  destruct (getitem_populated a d f j s
              (py_max snd ("anger", a)
                 [("disgust", d); ("fear", f); ("joy", j); ("sadness", s)]).1)
    as (Ha & Hd & Hf & Hj & Hs & Hk).
  unfold mbind, M_bind, res_bind, lift. rewrite Hk. cbn [is_None].
  by rewrite Ha, Hd, Hf, Hj, Hs.
Qed.

(** X13. A request without the field, or whose field is empty or holds only
    whitespace, is answered with the fixed line and status 200, and nothing
    is sent upstream. *)
Theorem blank_field_is_answered_locally (request : FlaskRequest) (w : World) :
  (submitted request = None \/
   exists v, submitted request = Some v /\ blank v = true) ->
  emotion_detector_route request w =
    (Ok ("Invalid text! Please try again!", 200), w).
Proof.
  intros Hs.
  assert (blank (request_text request) = true) as Hb.
  { rewrite request_text_submitted. destruct Hs as [-> |(v & -> & Hv)]; [done|].
    simpl. destruct (str_truthy v); [|done]. by rewrite blank_strip. }
  apply route_sentinel. by apply emotion_detector_blank.
Qed.

(** X14. For a field that is not blank the handler sends one request, and
    the text in it is the field stripped: a text that is not blank and that
    stripping leaves as it is. *)
Theorem handler_sends_stripped_text (request : FlaskRequest) (v : string)
    (w : World) :
  submitted request = Some v ->
  blank v = false ->
  (emotion_detector_route request w).2 = after_call w (strip v) /\
  req_json (watson_request (strip v)) =
    PDict {[ "raw_document" := PDict {[ "text" := PStr (strip v) ]} ]} /\
  blank (strip v) = false /\
  strip (strip v) = strip v.
Proof.
  intros Hs Hb.
  assert (request_text request = strip v) as Ht.
  { rewrite request_text_submitted, Hs. simpl. by destruct v. }
  split; [|split; [done|split]].
  - rewrite route_world, Ht, emotion_detector_call; [done|].
    by rewrite blank_strip.
  - by rewrite blank_strip.
  - apply strip_strip.
Qed.

End Handler.

(** * The test *)

Section Suite.
Context `{Builtins}.

Lemma emotion_detector_world (text : string) (w : World) :
  (emotion_detector text w).2 = if blank text then w else after_call w text.
Proof.
  destruct (blank text) eqn:Hb.
  - by rewrite emotion_detector_blank.
  - by rewrite emotion_detector_call.
Qed.

(** The outcome depends on the remote service only, not on what was sent
    before. *)
Lemma emotion_detector_remote (text : string) (w1 w2 : World) :
  remote w1 = remote w2 ->
  (emotion_detector text w1).1 = (emotion_detector text w2).1.
Proof.
  intros Hr. destruct (blank text) eqn:Hb.
  - by rewrite !emotion_detector_blank.
  - rewrite !emotion_detector_call by done. simpl. by rewrite Hr.
Qed.

Lemma emotion_detector_keeps_remote (text : string) (w : World) :
  remote (emotion_detector text w).2 = remote w.
Proof. rewrite emotion_detector_world. by destruct (blank text). Qed.

Lemma case_passes_remote (w1 w2 : World) (case : string * string) :
  remote w1 = remote w2 -> case_passes w1 case -> case_passes w2 case.
Proof.
  intros Hr (res & Hd & Hk). exists res. split; [|done].
  by rewrite <- (emotion_detector_remote _ w1 w2).
Qed.

Lemma case_passes_not_blank (w : World) (case : string * string) :
  case_passes w case -> blank case.1 = false.
Proof.
  intros (res & Hd & Hk). destruct (blank case.1) eqn:Hb; [|done].
  rewrite emotion_detector_blank in Hd by done. simpl in Hd.
  injection Hd as <-. done.
Qed.

Lemma record_has_dominant (text : string) (w w' : World) (res : Result) :
  emotion_detector text w = (Ok res, w') ->
  exists v, getitem res "dominant_emotion" = Ok v.
Proof.
  intros Hr.
  destruct (emotion_detector_shape _ _ _ _ Hr) as [->|(a & d & f & j & s & ->)].
  - by exists VNone.
  - eexists. apply getitem_populated.
Qed.

Lemma eq_str_true (v : value) (expected : string) :
  eq_str v expected = true <-> v = VStr expected.
Proof.
  destruct v as [| |s]; simpl; [done..|]. rewrite String.eqb_eq.
  split; [by intros ->|by intros [= ->]].
Qed.

(** What the loop does with the cases that are left: it ends at the first
    case that does not pass, having sent one request for each case before it
    and, unless its text is blank, one for it. *)
Lemma for_cases_spec (cases : list (string * string)) : forall w : World,
  remote (for_cases cases w).2 = remote w /\
  match (for_cases cases w).1 with
  | Passed =>
      Forall (case_passes w) cases /\
      sent (for_cases cases w).2 = sent w ++ (watson_request <$> cases.*1)
  | AssertionError text res =>
      exists pre expected post,
        cases = pre ++ (text, expected) :: post /\
        Forall (case_passes w) pre /\
        (emotion_detector text w).1 = Ok res /\
        res !! "dominant_emotion" <> Some (VStr expected) /\
        sent (for_cases cases w).2 =
          sent w ++ (watson_request <$> pre.*1)
                 ++ (if blank text then [] else [watson_request text])
  | Errored e =>
      exists pre text expected post,
        cases = pre ++ (text, expected) :: post /\
        Forall (case_passes w) pre /\
        (emotion_detector text w).1 = Raise e /\
        sent (for_cases cases w).2 =
          sent w ++ (watson_request <$> pre.*1) ++ [watson_request text]
  end.
Proof.
  induction cases as [|[text expected] cases IH]; intros w.
  { simpl. split; [done|]. split; [constructor|]. by rewrite app_nil_r. }
  simpl.
  pose proof (emotion_detector_world text w) as Hw.
  pose proof (emotion_detector_keeps_remote text w) as Hrem.
  destruct (emotion_detector text w) as [[res|e] w'] eqn:Hd; simpl in Hw, Hrem.
  2:{ simpl. split; [done|]. exists [], text, expected, cases.
      split; [done|]. split; [constructor|]. split; [by rewrite Hd|]. subst w'.
      destruct (blank text) eqn:Hb; [|done].
      by rewrite emotion_detector_blank in Hd. }
  destruct (record_has_dominant _ _ _ _ Hd) as [v Hv]. rewrite Hv.
  destruct (eq_str v expected) eqn:Heq.
  - apply eq_str_true in Heq as ->.
    assert (case_passes w (text, expected)) as Hpass.
    { exists res. simpl. rewrite Hd. split; [done|]. unfold getitem in Hv.
      by destruct (res !! "dominant_emotion") as [?|]; simplify_eq. }
    pose proof (case_passes_not_blank _ _ Hpass) as Hb. simpl in Hb.
    rewrite Hb in Hw. subst w'.
    destruct (IH (after_call w text)) as [Hrem' Hspec].
    split; [done|].
    destruct (for_cases cases (after_call w text)) as [[|t r|e] w''];
      simpl in Hspec |- *.
    + destruct Hspec as [Hall Hsent]. split.
      * constructor; [done|].
        eapply Forall_impl; [exact Hall|]. intros c. by apply case_passes_remote.
      * rewrite Hsent. simpl. by rewrite <- app_assoc.
    + destruct Hspec as (pre & x & post & -> & Hall & Hdet & Hne & Hsent).
      exists ((text, expected) :: pre), x, post.
      split; [done|]. split; [|split; [|split; [done|]]].
      * constructor; [done|].
        eapply Forall_impl; [exact Hall|]. intros c. by apply case_passes_remote.
      * by rewrite <- (emotion_detector_remote t (after_call w text) w).
      * rewrite Hsent. simpl. by rewrite <- !app_assoc.
    + destruct Hspec as (pre & t & x & post & -> & Hall & Hdet & Hsent).
      exists ((text, expected) :: pre), t, x, post.
      split; [done|]. split; [|split].
      * constructor; [done|].
        eapply Forall_impl; [exact Hall|]. intros c. by apply case_passes_remote.
      * by rewrite <- (emotion_detector_remote t (after_call w text) w).
      * rewrite Hsent. simpl. by rewrite <- !app_assoc.
  - simpl. split; [done|]. exists [], expected, cases.
    split; [done|]. split; [constructor|]. split; [by rewrite Hd|].
    split; [|by subst w'; destruct (blank text); rewrite ?app_nil_r].
    intros Hk. unfold getitem in Hv. rewrite Hk in Hv. injection Hv as <-.
    simpl in Heq. by rewrite String.eqb_refl in Heq.
Qed.

(** X15. The test passes exactly when, for each of the five cases, the
    record for its text names the expected emotion; it has then sent the
    five requests, in the order of the cases. *)
Theorem test_passes_iff_all_cases_pass (w : World) :
  ((test_dominant_emotions w).1 = Passed <->
   forall case, case ∈ CASES -> case_passes w case) /\
  ((test_dominant_emotions w).1 = Passed ->
   sent (test_dominant_emotions w).2 = sent w ++ (watson_request <$> CASES.*1)).
Proof.
  unfold test_dominant_emotions.
  destruct (for_cases_spec CASES w) as [_ Hspec].
  destruct (for_cases CASES w) as [[|t r|e] w'] eqn:Hf; simpl in Hspec |- *.
  - destruct Hspec as [Hall Hsent]. split; [|done]. split; [|done].
    intros _. by apply Forall_forall.
  - destruct Hspec as (pre & x & post & Hc & _ & Hdet & Hne & _).
    split; [|done]. split; [done|]. intros Hall.
    destruct (Hall (t, x)) as (res & Hd & Hk).
    { rewrite Hc. apply elem_of_app. right. by left. }
    simpl in Hd, Hk. rewrite Hdet in Hd. injection Hd as <-. done.
  - destruct Hspec as (pre & t & x & post & Hc & _ & Hdet & _).
    split; [|done]. split; [done|]. intros Hall.
    destruct (Hall (t, x)) as (res & Hd & Hk).
    { rewrite Hc. apply elem_of_app. right. by left. }
    simpl in Hd. by rewrite Hdet in Hd.
Qed.

(** X16. When an assert of the test fails, it is on the first case whose
    record does not name the expected emotion, every case before it has
    passed, and one request has been sent for each case up to it. *)
Theorem test_fails_on_first_wrong_case (w : World) (text : string) (res : Result) :
  (test_dominant_emotions w).1 = AssertionError text res ->
  exists pre expected post,
    CASES = pre ++ (text, expected) :: post /\
    (forall case, case ∈ pre -> case_passes w case) /\
    (emotion_detector text w).1 = Ok res /\
    res !! "dominant_emotion" <> Some (VStr expected) /\
    sent (test_dominant_emotions w).2 =
      sent w ++ (watson_request <$> pre.*1) ++ [watson_request text].
Proof.
  unfold test_dominant_emotions. intros Hf.
  destruct (for_cases_spec CASES w) as [_ Hspec]. rewrite Hf in Hspec.
  destruct Hspec as (pre & x & post & Hc & Hall & Hdet & Hne & Hsent).
  exists pre, x, post. split; [done|]. split; [|split; [done|split; [done|]]].
  - by apply Forall_forall.
  - rewrite Hsent. do 2 f_equal.
    assert ((text, x) ∈ CASES) as Hin.
    { rewrite Hc. apply elem_of_app. right. by left. }
    unfold CASES in Hin.
    by repeat (apply elem_of_cons in Hin as [[= -> _]|Hin]; [done|]);
      apply elem_of_nil in Hin.
Qed.

(** X17. When an exception comes out of the test, it is the one that
    emotion_detector raises on the first case that does not pass, after
    one request for each case up to it: the test has no handler of its
    own. *)
Theorem test_errors_on_first_raising_case (w : World) (e : exn) :
  (test_dominant_emotions w).1 = Errored e ->
  exists pre text expected post,
    CASES = pre ++ (text, expected) :: post /\
    (forall case, case ∈ pre -> case_passes w case) /\
    (emotion_detector text w).1 = Raise e /\
    sent (test_dominant_emotions w).2 =
      sent w ++ (watson_request <$> pre.*1) ++ [watson_request text].
Proof.
  unfold test_dominant_emotions. intros Hf.
  destruct (for_cases_spec CASES w) as [_ Hspec]. rewrite Hf in Hspec.
  destruct Hspec as (pre & t & x & post & Hc & Hall & Hdet & Hsent).
  exists pre, t, x, post. split; [done|]. split; [|done].
  by apply Forall_forall.
Qed.

End Suite.

(** * The further properties on sample inputs *)

Section MoreSamples.
Import Float.

Lemma non_object_body_raises_witness :
  @emotion_detector sample_builtins "hello"
    (answering 503 (Ok (PStr "Service Unavailable"))) =
    (Raise AttributeError,
     after_call (answering 503 (Ok (PStr "Service Unavailable"))) "hello").
Proof.
  apply (@non_object_body_raises sample_builtins "hello"
           (answering 503 (Ok (PStr "Service Unavailable")))
           (mkResponse 503 (Ok (PStr "Service Unavailable")))
           (PStr "Service Unavailable")).
  - reflexivity.
  - reflexivity.
  - discriminate.
  - reflexivity.
  - discriminate.
Defined.

Lemma falsy_predictions_return_sentinel_witness :
  @emotion_detector sample_builtins "hello"
    (answering 200 (Ok (PDict {[ "emotionPredictions" := PNone ]}))) =
    (Ok EMPTY_RESULT,
     after_call (answering 200 (Ok (PDict {[ "emotionPredictions" := PNone ]}))) "hello").
Proof.
  apply (@falsy_predictions_return_sentinel sample_builtins "hello"
           (answering 200 (Ok (PDict {[ "emotionPredictions" := PNone ]})))
           (mkResponse 200 (Ok (PDict {[ "emotionPredictions" := PNone ]})))
           {[ "emotionPredictions" := PNone ]} PNone).
  - reflexivity.
  - reflexivity.
  - reflexivity.
  - reflexivity.
  - left. reflexivity.
Defined.

Lemma non_list_predictions_raise_witness :
  @emotion_detector sample_builtins "hello"
    (answering 200 (Ok (PDict {[ "emotionPredictions" := PInt 3 ]}))) =
    (Raise TypeError,
     after_call (answering 200 (Ok (PDict {[ "emotionPredictions" := PInt 3 ]}))) "hello").
Proof.
  apply (@non_list_predictions_raise sample_builtins "hello"
           (answering 200 (Ok (PDict {[ "emotionPredictions" := PInt 3 ]})))
           (mkResponse 200 (Ok (PDict {[ "emotionPredictions" := PInt 3 ]})))
           {[ "emotionPredictions" := PInt 3 ]} (PInt 3)).
  - reflexivity.
  - reflexivity.
  - discriminate.
  - reflexivity.
  - reflexivity.
  - reflexivity.
  - discriminate.
Defined.

Lemma non_object_entry_raises_witness :
  @emotion_detector sample_builtins "hello"
    (answering 200 (Ok (PDict {[ "emotionPredictions" := PList [PStr "joy"] ]}))) =
    (Raise AttributeError,
     after_call
       (answering 200 (Ok (PDict {[ "emotionPredictions" := PList [PStr "joy"] ]})))
       "hello").
Proof.
  apply (@non_object_entry_raises sample_builtins "hello"
           (answering 200 (Ok (PDict {[ "emotionPredictions" := PList [PStr "joy"] ]})))
           (mkResponse 200 (Ok (PDict {[ "emotionPredictions" := PList [PStr "joy"] ]})))
           {[ "emotionPredictions" := PList [PStr "joy"] ]} (PStr "joy") []).
  - reflexivity.
  - reflexivity.
  - discriminate.
  - reflexivity.
  - reflexivity.
  - left. discriminate.
Defined.

Lemma first_failing_key_decides_witness :
  @emotion_detector sample_builtins "hello" (answering 200 (Ok two_bad_scores_body)) =
    (Raise TypeError, after_call (answering 200 (Ok two_bad_scores_body)) "hello").
Proof.
  apply (@first_failing_key_decides sample_builtins "hello"
           (answering 200 (Ok two_bad_scores_body))
           (mkResponse 200 (Ok two_bad_scores_body))
           {[ "emotionPredictions" :=
                PList [PDict {[ "emotion" :=
                  PDict {[ "anger" := PFloat half; "disgust" := PNone;
                           "fear" := PStr "high" ]} ]}] ]}
           {[ "emotion" :=
                PDict {[ "anger" := PFloat half; "disgust" := PNone;
                         "fear" := PStr "high" ]} ]}
           []
           {[ "anger" := PFloat half; "disgust" := PNone; "fear" := PStr "high" ]}
           ["anger"] "disgust" ["fear"; "joy"; "sadness"] PNone TypeError).
  - reflexivity.
  - reflexivity.
  - discriminate.
  - reflexivity.
  - reflexivity.
  - reflexivity.
  - reflexivity.
  - intros k' Hk. apply list_elem_of_In in Hk. destruct Hk as [<-|[]].
    exists half. reflexivity.
  - reflexivity.
  - reflexivity.
Defined.

Lemma record_comes_from_first_entry_witness :
  blank "I am glad" = false /\
  after_call (answering 200 (Ok glad_body)) "I am glad" =
    after_call (answering 200 (Ok glad_body)) "I am glad" /\
  exists resp a d f j s k,
    remote (answering 200 (Ok glad_body)) (watson_request "I am glad") = Ok resp /\
    status_code resp <> 400 /\
    @yields sample_builtins resp a d f j s /\
    populated half zero zero one one "joy" = populated a d f j s k.
Proof.
  apply (@record_comes_from_first_entry sample_builtins "I am glad"
           (answering 200 (Ok glad_body))).
  - vm_compute. reflexivity.
  - apply populated_not_sentinel.
Defined.

Lemma sentinel_has_a_cause_witness :
  (blank "hello" = true /\
   after_call (answering 400 (Ok glad_body)) "hello" = answering 400 (Ok glad_body)) \/
  (blank "hello" = false /\
   after_call (answering 400 (Ok glad_body)) "hello" =
     after_call (answering 400 (Ok glad_body)) "hello" /\
   exists resp,
     remote (answering 400 (Ok glad_body)) (watson_request "hello") = Ok resp /\
     (status_code resp = 400 \/ (exists e, json resp = Raise e) \/
      exists body : gmap string pyval,
        json resp = Ok (PDict body) /\
        (body !! "emotionPredictions" = None \/
         exists v, body !! "emotionPredictions" = Some v /\ falsy v))).
Proof.
  apply (@sentinel_has_a_cause sample_builtins "hello" (answering 400 (Ok glad_body))).
  vm_compute. reflexivity.
Defined.

Lemma dominant_is_not_beaten_later_witness :
  exists (k : string) (i : nat) (v : float),
    @emotion_detector sample_builtins "hello" (answering 200 (Ok nan_anger_body)) =
      (Ok (populated nan zero zero half zero k),
       after_call (answering 200 (Ok nan_anger_body)) "hello") /\
    score_list nan zero zero half zero !! i = Some (k, v) /\
    (forall i' x, (i < i')%nat -> score_list nan zero zero half zero !! i' = Some x ->
                  Float.gt x.2 v = false) /\
    (k <> "anger" -> Float.gt v nan = true).
Proof.
  apply (@dominant_is_not_beaten_later sample_builtins "hello"
           (answering 200 (Ok nan_anger_body)) (mkResponse 200 (Ok nan_anger_body))).
  - reflexivity.
  - reflexivity.
  - discriminate.
  - eexists _, _, _, _. repeat split; reflexivity.
Defined.

Lemma nan_anger_is_dominant_witness :
  @emotion_detector sample_builtins "hello" (answering 200 (Ok nan_anger_sad_body)) =
    (Ok (populated nan zero zero zero one "anger"),
     after_call (answering 200 (Ok nan_anger_sad_body)) "hello").
Proof.
  apply (@nan_anger_is_dominant sample_builtins "hello"
           (answering 200 (Ok nan_anger_sad_body))
           (mkResponse 200 (Ok nan_anger_sad_body))).
  - reflexivity.
  - reflexivity.
  - discriminate.
  - eexists _, _, _, _. repeat split; reflexivity.
  - reflexivity.
Defined.

Lemma only_five_keys_are_read_witness :
  (@emotion_detector sample_builtins "hello" (answering 200 (Ok noisy_joy_body))).1 =
  (@emotion_detector sample_builtins "hello" (answering 500 (Ok joy_body))).1.
Proof.
  apply (@only_five_keys_are_read sample_builtins "hello"
           (answering 200 (Ok noisy_joy_body)) (answering 500 (Ok joy_body))
           (mkResponse 200 (Ok noisy_joy_body)) (mkResponse 500 (Ok joy_body))
           {[ "emotionPredictions" :=
                PList [PDict {[ "emotion" :=
                                  PDict {[ "joy" := PInt 1; "surprise" := PStr "high" ]};
                                "target" := PStr "me" ]}];
              "producerId" := PNone ]}
           {[ "emotionPredictions" :=
                PList [PDict {[ "emotion" := PDict {[ "joy" := PInt 1 ]} ]}] ]}
           {[ "emotion" := PDict {[ "joy" := PInt 1; "surprise" := PStr "high" ]};
              "target" := PStr "me" ]}
           {[ "emotion" := PDict {[ "joy" := PInt 1 ]} ]}
           [] []
           {[ "joy" := PInt 1; "surprise" := PStr "high" ]}
           {[ "joy" := PInt 1 ]}).
  - reflexivity.
  - reflexivity.
  - reflexivity.
  - discriminate.
  - discriminate.
  - reflexivity.
  - reflexivity.
  - reflexivity.
  - reflexivity.
  - reflexivity.
  - reflexivity.
  - intros k Hk. apply list_elem_of_In in Hk.
    destruct Hk as [<-|[<-|[<-|[<-|[<-|[]]]]]]; reflexivity.
Defined.

Lemma missing_emotion_mapping_gives_zeros_witness :
  @emotion_detector sample_builtins "hello"
    (answering 200 (Ok (PDict {[ "emotionPredictions" := PList [PDict ∅] ]}))) =
    (Ok (populated zero zero zero zero zero "anger"),
     after_call (answering 200 (Ok (PDict {[ "emotionPredictions" := PList [PDict ∅] ]})))
       "hello").
Proof.
  apply (@missing_emotion_mapping_gives_zeros sample_builtins "hello"
           (answering 200 (Ok (PDict {[ "emotionPredictions" := PList [PDict ∅] ]})))
           (mkResponse 200 (Ok (PDict {[ "emotionPredictions" := PList [PDict ∅] ]})))
           {[ "emotionPredictions" := PList [PDict ∅] ]} ∅ []).
  - reflexivity.
  - reflexivity.
  - discriminate.
  - reflexivity.
  - reflexivity.
  - left. reflexivity.
Defined.

Lemma blank_field_is_answered_locally_witness :
  @emotion_detector_route sample_builtins
    (mkFlaskRequest "POST" [("textToAnalyze", "I am glad")] [])
    (answering 200 (Ok glad_body)) =
    (Ok ("Invalid text! Please try again!", 200), answering 200 (Ok glad_body)).
Proof.
  apply (@blank_field_is_answered_locally sample_builtins
           (mkFlaskRequest "POST" [("textToAnalyze", "I am glad")] [])).
  left. reflexivity.
Defined.

Lemma handler_sends_stripped_text_witness :
  (@emotion_detector_route sample_builtins
     (mkFlaskRequest "GET" [("textToAnalyze", "  I am glad ")] [])
     (answering 200 (Ok glad_body))).2 =
    after_call (answering 200 (Ok glad_body)) (strip "  I am glad ") /\
  req_json (watson_request (strip "  I am glad ")) =
    PDict {[ "raw_document" := PDict {[ "text" := PStr (strip "  I am glad ") ]} ]} /\
  blank (strip "  I am glad ") = false /\
  strip (strip "  I am glad ") = strip "  I am glad ".
Proof.
  apply (@handler_sends_stripped_text sample_builtins
           (mkFlaskRequest "GET" [("textToAnalyze", "  I am glad ")] [])
           "  I am glad "); reflexivity.
Defined.

(** The test passes against the sample service. *)
Example test_passes_on_fixture :
  (@test_dominant_emotions sample_builtins fixture_world).1 = Passed.
Proof. by vm_compute. Qed.

Lemma test_passes_iff_all_cases_pass_witness :
  ((@test_dominant_emotions sample_builtins fixture_world).1 = Passed <->
   forall case, case ∈ CASES -> @case_passes sample_builtins fixture_world case) /\
  ((@test_dominant_emotions sample_builtins fixture_world).1 = Passed ->
   sent (@test_dominant_emotions sample_builtins fixture_world).2 =
     sent fixture_world ++ (watson_request <$> CASES.*1)).
Proof. apply (@test_passes_iff_all_cases_pass sample_builtins fixture_world). Defined.

Lemma test_fails_on_first_wrong_case_witness :
  exists pre expected post,
    CASES = pre ++ ("I am glad this happened", expected) :: post /\
    (forall case, case ∈ pre ->
       @case_passes sample_builtins (answering 400 (Ok glad_body)) case) /\
    (@emotion_detector sample_builtins "I am glad this happened"
       (answering 400 (Ok glad_body))).1 = Ok EMPTY_RESULT /\
    EMPTY_RESULT !! "dominant_emotion" <> Some (VStr expected) /\
    sent (@test_dominant_emotions sample_builtins (answering 400 (Ok glad_body))).2 =
      sent (answering 400 (Ok glad_body)) ++ (watson_request <$> pre.*1)
        ++ [watson_request "I am glad this happened"].
Proof.
  apply (@test_fails_on_first_wrong_case sample_builtins (answering 400 (Ok glad_body))).
  vm_compute. reflexivity.
Defined.

Lemma test_errors_on_first_raising_case_witness :
  exists pre text expected post,
    CASES = pre ++ (text, expected) :: post /\
    (forall case, case ∈ pre ->
       @case_passes sample_builtins (unreachable ConnectionError) case) /\
    (@emotion_detector sample_builtins text (unreachable ConnectionError)).1 =
      Raise ConnectionError /\
    sent (@test_dominant_emotions sample_builtins (unreachable ConnectionError)).2 =
      sent (unreachable ConnectionError) ++ (watson_request <$> pre.*1)
        ++ [watson_request text].
Proof.
  apply (@test_errors_on_first_raising_case sample_builtins
           (unreachable ConnectionError) ConnectionError).
  vm_compute. reflexivity.
Defined.

End MoreSamples.
